(** * The virtual console of the kernel: src/tty/tty.c

    A shallow embedding of the history buffer, the cursor engine
    ([tty_fix_pos]), the renderer ([update_tty]), the write pipeline
    ([tty_putchar], [tty_write]) and the line editor ([tty_erase]),
    followed by the properties of the console that the code has, and the
    evaluations of the code where it departs from them. *)

From stdpp Require Import base numbers option list.

Local Open Scope Z_scope.

(** ** What tty.h and vga.h declare

    Neither header is part of the sources at hand, so the constants they
    define are the fields of a class, and every definition below is stated
    for an arbitrary instance.  [POS_BITS] is the width of the signed type
    [vgapos_t]. *)

Class tty_h := {
  VGA_WIDTH : Z;
  VGA_HEIGHT : Z;
  VGA_DEFAULT_COLOR : Z;
  HISTORY_LINES : Z;
  EMPTY_CHAR : Z;
  TAB_SIZE : Z;
  ANSI_ESCAPE : Z;
  POS_BITS : Z
}.

(** The requirements on the constants under which the console operates:
    the geometry is not degenerate, the history is taller than the viewport,
    and its positions fit [vgapos_t]. *)
Record tty_h_ok `{tty_h} : Prop := {
  width_pos : 0 < VGA_WIDTH;
  height_pos : 0 < VGA_HEIGHT;
  lines_gt : VGA_HEIGHT < HISTORY_LINES;
  tab_range : 0 < TAB_SIZE ≤ VGA_WIDTH;
  bits_range : 2 ≤ POS_BITS ≤ 32;
  width_fits : 2 * VGA_WIDTH ≤ 2 ^ (POS_BITS - 1);
  lines_fit : HISTORY_LINES < 2 ^ (POS_BITS - 1);
  cells_fit : VGA_WIDTH * HISTORY_LINES < 2 ^ (POS_BITS - 1)
}.

(** ** Machine integers *)

(** [size_t], on the 32-bit target of the kernel. *)
Definition size_t (z : Z) : Z := z mod 2 ^ 32.

(** [uint16_t], the type of a cell, and [sizeof(uint16_t)]. *)
Definition uint16_t (z : Z) : Z := z mod 2 ^ 16.
Definition sizeof_uint16_t : Z := 2.

(** Modelled from the spec: the declaration of [vgacolor_t] is in vga.h,
    which is missing; a color attribute is 8 bits wide. *)
Definition vgacolor_t (z : Z) : Z := z mod 2 ^ 8.

(** The one's complement of an [int], as the operand of [&=]. *)
Definition int_not (z : Z) : Z := - z - 1.

Section Console.
Context `{cfg : tty_h}.

(** Conversion to [vgapos_t]: the value is reduced to [POS_BITS] bits and
    read as a two's complement number. *)
Definition vgapos_t (z : Z) : Z :=
  (z + 2 ^ (POS_BITS - 1)) mod 2 ^ POS_BITS - 2 ^ (POS_BITS - 1).

(** Modelled from the spec: [HISTORY_SIZE], the number of cells of
    [tty->history], is defined in the missing tty.h; the history holds
    viewport_width * history_line_count cells. *)
Definition HISTORY_SIZE : Z := VGA_WIDTH * HISTORY_LINES.

(** Modelled from the spec: the macro [HISTORY_POS] of the missing tty.h;
    the cell addressed by (screen_y, cursor_x, cursor_y), in row-major
    order. *)
Definition HISTORY_POS (screen_y cursor_x cursor_y : Z) : Z :=
  (screen_y + cursor_y) * VGA_WIDTH + cursor_x.

(** Modelled from the spec: the macro [GET_TAB_SIZE] of the missing tty.h;
    the distance from cursor_x to the next tab stop, for a fixed tab
    width. *)
Definition GET_TAB_SIZE (cursor_x : Z) : Z :=
  TAB_SIZE - Z.rem cursor_x TAB_SIZE.

(** ** The console *)

Record tty_t := mk_tty {
  cursor_x : Z;
  cursor_y : Z;
  screen_y : Z;
  current_color : Z;
  history : list Z;
  prompted_chars : Z;
  freeze : bool
}.

Definition set_cursor_x (v : Z) (t : tty_t) : tty_t :=
  mk_tty v (cursor_y t) (screen_y t) (current_color t) (history t)
    (prompted_chars t) (freeze t).
Definition set_cursor_y (v : Z) (t : tty_t) : tty_t :=
  mk_tty (cursor_x t) v (screen_y t) (current_color t) (history t)
    (prompted_chars t) (freeze t).
Definition set_screen_y (v : Z) (t : tty_t) : tty_t :=
  mk_tty (cursor_x t) (cursor_y t) v (current_color t) (history t)
    (prompted_chars t) (freeze t).
Definition set_current_color (v : Z) (t : tty_t) : tty_t :=
  mk_tty (cursor_x t) (cursor_y t) (screen_y t) v (history t)
    (prompted_chars t) (freeze t).
Definition set_history (v : list Z) (t : tty_t) : tty_t :=
  mk_tty (cursor_x t) (cursor_y t) (screen_y t) (current_color t) v
    (prompted_chars t) (freeze t).
Definition set_prompted_chars (v : Z) (t : tty_t) : tty_t :=
  mk_tty (cursor_x t) (cursor_y t) (screen_y t) (current_color t) (history t)
    v (freeze t).
Definition set_freeze (v : bool) (t : tty_t) : tty_t :=
  mk_tty (cursor_x t) (cursor_y t) (screen_y t) (current_color t) (history t)
    (prompted_chars t) v.

(** The devices the console draws on and rings: the text buffer of the
    display, the hardware cursor, and the number of bells sent to the
    timer. *)
Record devices := mk_devices {
  VGA_BUFFER : list Z;
  vga_cursor : Z * Z;
  beeps : nat
}.

(** ** Memory

    An array is a list of cells.  A store outside of the array has no
    meaning in this model: the operation that attempts it has no result
    ([None]).  A load outside of the array reads the memory that surrounds
    it, which the console never owns: it is given by [beyond], a function of
    the offset of the cell from the start of the array.  Offsets are those of
    a 32-bit address space, so offsets in cells are taken modulo [2 ^ 31]. *)

Variable beyond : Z → Z.

Definition load (a : list Z) (i : Z) : Z :=
  let j := i mod 2 ^ 31 in
  default (beyond j) (a !! Z.to_nat j).

Definition store (a : list Z) (i : Z) (v : Z) : option (list Z) :=
  if decide (0 ≤ i < Z.of_nat (length a))
  then Some (<[Z.to_nat i := v]> a)
  else None.

(** [memmove(a + dst, src_array + src, n cells)], also [memcpy]: the [n]
    cells are all loaded before any is stored. *)
Definition memmove (a : list Z) (dst : Z) (from : list Z) (src n : Z)
  : option (list Z) :=
  if decide (n = 0) then Some a
  else if decide (0 ≤ dst ∧ dst + n ≤ Z.of_nat (length a))
  then Some (take (Z.to_nat dst) a ++ (load from <$> seqZ src n)
               ++ drop (Z.to_nat (dst + n)) a)
  else None.

(** ** Attributes *)

Definition tty_reset_attrs (tty : tty_t) : tty_t :=
  set_current_color (vgacolor_t VGA_DEFAULT_COLOR) tty.

Definition tty_set_fgcolor (tty : tty_t) (color : Z) : tty_t :=
  let tty := set_current_color
    (vgacolor_t (Z.land (current_color tty) (int_not (vgacolor_t 0xff)))) tty in
  set_current_color (vgacolor_t (Z.lor (current_color tty) color)) tty.

Definition tty_set_bgcolor (tty : tty_t) (color : Z) : tty_t :=
  let tty := set_current_color
    (vgacolor_t (Z.land (current_color tty)
                   (int_not (vgacolor_t (Z.shiftl 0xff 4))))) tty in
  set_current_color
    (vgacolor_t (Z.lor (current_color tty) (Z.shiftl color 4))) tty.

(** ** Clearing and drawing *)

(** [tty_clear_portion(a + off, size)] *)
Definition tty_clear_portion (a : list Z) (off size : Z) : option (list Z) :=
  if decide (size = 0) then Some a
  else if decide (0 ≤ off ∧ off + size ≤ Z.of_nat (length a))
  then Some (take (Z.to_nat off) a ++ replicate (Z.to_nat size) EMPTY_CHAR
               ++ drop (Z.to_nat (off + size)) a)
  else None.

Definition vga_move_cursor (x y : Z) (d : devices) : devices :=
  mk_devices (VGA_BUFFER d) (x, y) (beeps d).

Definition update_tty (tty : tty_t) (d : devices) : option devices :=
  let bytes :=
    if decide (screen_y tty + VGA_HEIGHT ≤ HISTORY_LINES)
    then size_t (VGA_WIDTH * VGA_HEIGHT * sizeof_uint16_t)
    else size_t (VGA_WIDTH * (HISTORY_LINES - screen_y tty) * sizeof_uint16_t) in
  buf ← memmove (VGA_BUFFER d) 0 (history tty) (VGA_WIDTH * screen_y tty)
          (bytes / sizeof_uint16_t);
  Some (vga_move_cursor (cursor_x tty) (cursor_y tty)
          (mk_devices buf (vga_cursor d) (beeps d))).

Definition tty_clear (tty : tty_t) (d : devices) : option (tty_t * devices) :=
  let tty := set_cursor_x 0 tty in
  let tty := set_cursor_y 0 tty in
  let tty := set_screen_y 0 tty in
  h ← tty_clear_portion (history tty) 0 HISTORY_SIZE;
  let tty := set_history h tty in
  d ← update_tty tty d;
  Some (tty, d).

(** ** The cursor engine *)

Definition tty_fix_pos (tty : tty_t) : option tty_t :=
  let tty :=
    if decide (cursor_x tty < 0) then
      let p := vgapos_t (- cursor_x tty) in
      let tty' := set_cursor_x (vgapos_t (VGA_WIDTH - Z.rem p VGA_WIDTH)) tty in
      set_cursor_y (vgapos_t (cursor_y tty' + (Z.quot p VGA_WIDTH - 1))) tty'
    else tty in
  let tty :=
    if decide (cursor_x tty >= VGA_WIDTH) then
      let p := cursor_x tty in
      let tty' := set_cursor_x (vgapos_t (Z.rem p VGA_WIDTH)) tty in
      set_cursor_y (vgapos_t (cursor_y tty' + Z.quot p VGA_WIDTH)) tty'
    else tty in
  let tty :=
    if decide (cursor_y tty < 0) then
      let tty' := set_screen_y
        (vgapos_t (screen_y tty - ((cursor_y tty - VGA_HEIGHT) + 1))) tty in
      set_cursor_y 0 tty'
    else tty in
  let tty :=
    if decide (cursor_y tty >= VGA_HEIGHT) then
      let tty' := set_screen_y
        (vgapos_t (screen_y tty + ((cursor_y tty - VGA_HEIGHT) + 1))) tty in
      set_cursor_y (vgapos_t (VGA_HEIGHT - 1)) tty'
    else tty in
  let tty :=
    if decide (screen_y tty < 0) then set_screen_y 0 tty else tty in
  if decide (screen_y tty + VGA_HEIGHT >= HISTORY_LINES) then
    let diff :=
      size_t (VGA_WIDTH * (HISTORY_LINES - (screen_y tty + VGA_HEIGHT) + 1)) in
    let size :=
      size_t (HISTORY_SIZE * sizeof_uint16_t - diff * sizeof_uint16_t) in
    h ← memmove (history tty) 0 (history tty)
          (size_t (diff * sizeof_uint16_t)) (size / sizeof_uint16_t);
    h ← tty_clear_portion h (size / sizeof_uint16_t) diff;
    Some (set_screen_y (vgapos_t (HISTORY_LINES - VGA_HEIGHT))
            (set_history h tty))
  else Some tty.

Definition tty_cursor_forward (tty : tty_t) (x y : Z) : option tty_t :=
  let tty := set_cursor_x (vgapos_t (cursor_x tty + x)) tty in
  let tty := set_cursor_y (vgapos_t (cursor_y tty + y)) tty in
  tty_fix_pos tty.

Definition tty_cursor_backward (tty : tty_t) (x y : Z) : option tty_t :=
  let tty := set_cursor_x (vgapos_t (cursor_x tty - x)) tty in
  let tty := set_cursor_y (vgapos_t (cursor_y tty - y)) tty in
  tty_fix_pos tty.

Definition tty_newline (tty : tty_t) : option tty_t :=
  let tty := set_cursor_x 0 tty in
  let tty := set_cursor_y (vgapos_t (cursor_y tty + 1)) tty in
  tty_fix_pos tty.

(** The invariants of a console between two operations. *)
Definition tty_inv (t : tty_t) : Prop :=
  0 ≤ cursor_x t < VGA_WIDTH ∧ 0 ≤ cursor_y t < VGA_HEIGHT ∧
  0 ≤ screen_y t ∧ screen_y t + VGA_HEIGHT ≤ HISTORY_LINES.

(** A console whose history array has the size that tty.h gives it. *)
Definition tty_wf (t : tty_t) : Prop :=
  Z.of_nat (length (history t)) = HISTORY_SIZE.

(** The six steps of [tty_fix_pos], in the order of the code. *)
Definition wrap_left (t : tty_t) : tty_t :=
  if decide (cursor_x t < 0) then
    let p := vgapos_t (- cursor_x t) in
    set_cursor_y (vgapos_t (cursor_y t + (Z.quot p VGA_WIDTH - 1)))
      (set_cursor_x (vgapos_t (VGA_WIDTH - Z.rem p VGA_WIDTH)) t)
  else t.

Definition wrap_right (t : tty_t) : tty_t :=
  if decide (cursor_x t >= VGA_WIDTH) then
    set_cursor_y (vgapos_t (cursor_y t + Z.quot (cursor_x t) VGA_WIDTH))
      (set_cursor_x (vgapos_t (Z.rem (cursor_x t) VGA_WIDTH)) t)
  else t.

Definition scroll_up (t : tty_t) : tty_t :=
  if decide (cursor_y t < 0) then
    set_cursor_y 0
      (set_screen_y
         (vgapos_t (screen_y t - ((cursor_y t - VGA_HEIGHT) + 1))) t)
  else t.

Definition scroll_down (t : tty_t) : tty_t :=
  if decide (cursor_y t >= VGA_HEIGHT) then
    set_cursor_y (vgapos_t (VGA_HEIGHT - 1))
      (set_screen_y
         (vgapos_t (screen_y t + ((cursor_y t - VGA_HEIGHT) + 1))) t)
  else t.

Definition clamp_screen (t : tty_t) : tty_t :=
  if decide (screen_y t < 0) then set_screen_y 0 t else t.

Definition evict (t : tty_t) : option tty_t :=
  if decide (screen_y t + VGA_HEIGHT >= HISTORY_LINES) then
    let diff :=
      size_t (VGA_WIDTH * (HISTORY_LINES - (screen_y t + VGA_HEIGHT) + 1)) in
    let size :=
      size_t (HISTORY_SIZE * sizeof_uint16_t - diff * sizeof_uint16_t) in
    h ← memmove (history t) 0 (history t)
          (size_t (diff * sizeof_uint16_t)) (size / sizeof_uint16_t);
    h ← tty_clear_portion h (size / sizeof_uint16_t) diff;
    Some (set_screen_y (vgapos_t (HISTORY_LINES - VGA_HEIGHT))
            (set_history h t))
  else Some t.

(** ** The write pipeline *)

(** [beep_during], of the timer driver: the bell is counted. *)
Definition beep_during (d : devices) : devices :=
  mk_devices (VGA_BUFFER d) (vga_cursor d) (S (beeps d)).

(** A byte is a [char], a signed 8-bit number.  The cell written for it is
    [(uint16_t) c | ((uint16_t) tty->current_color << 8)]. *)
Definition glyph_cell (c : Z) (tty : tty_t) : Z :=
  uint16_t (Z.lor (uint16_t c) (Z.shiftl (uint16_t (current_color tty)) 8)).

Definition tty_putchar (c : Z) (tty : tty_t) (update : bool) (d : devices)
  : option (tty_t * devices) :=
  '(tty, d) ←
    (if decide (c = 8) then Some (tty, beep_during d)
     else if decide (c = 9) then
       tty ← tty_cursor_forward tty (size_t (GET_TAB_SIZE (cursor_x tty))) 0;
       Some (tty, d)
     else if decide (c = 10) then
       tty ← tty_newline tty; Some (tty, d)
     else if decide (c = 13) then Some (set_cursor_x 0 tty, d)
     else
       h ← store (history tty)
             (HISTORY_POS (screen_y tty) (cursor_x tty) (cursor_y tty))
             (glyph_cell c tty);
       tty ← tty_cursor_forward (set_history h tty) 1 0;
       Some (tty, d));
  tty ← tty_fix_pos tty;
  if update then d ← update_tty tty d; Some (tty, d) else Some (tty, d).

(** ** The line editor *)

(** The loop of [tty_erase]: [i] runs from [begin] to [begin + count], both
    as [size_t]. *)
Definition erase_cells (a : list Z) (begin count : Z) : option (list Z) :=
  let first := size_t begin in
  let bound := size_t (first + count) in
  if decide (first < bound) then tty_clear_portion a first (bound - first)
  else Some a.

Definition tty_erase (tty : tty_t) (count : Z) (d : devices)
  : option (tty_t * devices) :=
  if decide (prompted_chars tty = 0) then Some (tty, d)
  else
    let count :=
      if decide (count > prompted_chars tty) then prompted_chars tty
      else count in
    tty ← tty_cursor_backward tty count 0;
    let begin := vgapos_t
      (HISTORY_POS (screen_y tty) (cursor_x tty) (cursor_y tty)) in
    h ← erase_cells (history tty) begin count;
    let tty := set_history h tty in
    d ← (if negb (freeze tty) then update_tty tty d else Some d);
    Some (set_prompted_chars (size_t (prompted_chars tty - count)) tty, d).

(** ** Bulk output *)

(** Modelled from the spec: [ansi_handle] is the external escape-sequence
    handler, missing from the sources.  It receives the console, the whole
    buffer, the index of the escape byte and the count; it may change the
    console and the devices, and it advances the index past the bytes it
    consumes: its last result is the number of bytes consumed after the
    escape byte. *)
Variable ansi_handle :
  tty_t → devices → list Z → nat → nat → option (tty_t * devices * nat).

(** The loop of [tty_write], from index [i]; [fuel] bounds the number of
    iterations, and the loop has no result when it is exhausted before [i]
    reaches [count].  A buffer shorter than [count] cannot be read. *)
Fixpoint tty_write_loop (fuel : nat) (buffer : list Z) (count i : nat)
    (tty : tty_t) (d : devices) : option (tty_t * devices) :=
  if decide (i < count)%nat then
    match fuel with
    | O => None
    | S fuel =>
      c ← buffer !! i;
      '(tty, d, i) ←
        (if decide (c ≠ ANSI_ESCAPE) then
           '(tty, d) ← tty_putchar c tty false d; Some (tty, d, i)
         else
           '(tty, d, k) ← ansi_handle tty d buffer i count;
           Some (tty, d, (i + k)%nat));
      d ← update_tty tty d;
      tty_write_loop fuel buffer count (S i) tty d
    end
  else Some (tty, d).

(** [buffer] and [tty] are pointers: [None] is the null pointer. *)
Definition tty_write (buffer : option (list Z)) (count : nat)
    (tty : option tty_t) (d : devices) : option (option tty_t * devices) :=
  match buffer, tty with
  | Some buf, Some t =>
    if decide (count = 0%nat) then Some (tty, d)
    else
      '(t, d) ← tty_write_loop count buf count 0 t d;
      Some (Some t, d)
  | _, _ => Some (tty, d)
  end.

(** ** The registry and the keyboard hooks *)

(** The consoles [ttys], the index of [current_tty] among them, and the
    devices. *)
Record kernel := mk_kernel {
  ttys : list tty_t;
  current_tty : nat;
  hw : devices
}.

Definition tty_ctrl_hook (code : Z) (k : kernel) : kernel :=
  k.

Definition tty_erase_hook (k : kernel) : option kernel :=
  tty ← ttys k !! current_tty k;
  '(tty, d) ← tty_erase tty 1 (hw k);
  Some (mk_kernel (<[current_tty k := tty]> (ttys k)) (current_tty k) d).

(** ** Sequences of operations

    The relative moves, the writes of one byte and the newlines a caller can
    apply to a console, and their effect in order. *)
Inductive tty_op :=
  | Forward (x y : Z)
  | Backward (x y : Z)
  | Putchar (c : Z) (update : bool)
  | Newline.

Definition run_op (op : tty_op) (s : tty_t * devices)
  : option (tty_t * devices) :=
  match op with
  | Forward x y => tty ← tty_cursor_forward s.1 x y; Some (tty, s.2)
  | Backward x y => tty ← tty_cursor_backward s.1 x y; Some (tty, s.2)
  | Putchar c update => tty_putchar c s.1 update s.2
  | Newline => tty ← tty_newline s.1; Some (tty, s.2)
  end.

Fixpoint run_ops (ops : list tty_op) (s : tty_t * devices)
  : option (tty_t * devices) :=
  match ops with
  | [] => Some s
  | op :: ops => s ← run_op op s; run_ops ops s
  end.

(** The text buffer of the display has one cell per cell of the viewport. *)
Definition vga_wf (d : devices) : Prop :=
  Z.of_nat (length (VGA_BUFFER d)) = VGA_WIDTH * VGA_HEIGHT.

(** ** Predicates on consoles and histories, for the properties below *)

(** What [tty_fix_pos] never touches. *)
Definition same_attrs (t t' : tty_t) : Prop :=
  current_color t' = current_color t ∧ prompted_chars t' = prompted_chars t ∧
  freeze t' = freeze t.

(** A console one step away from the invariants: the cursor has left the row
    to the right, or the viewport by its last row, by at most one row. *)
Definition near (t : tty_t) : Prop :=
  0 ≤ cursor_x t < 2 ^ (POS_BITS - 1) ∧ 0 ≤ cursor_y t ∧
  cursor_y t + Z.quot (cursor_x t) VGA_WIDTH ≤ VGA_HEIGHT ∧
  0 ≤ screen_y t ∧ screen_y t + VGA_HEIGHT ≤ HISTORY_LINES.

(** A console in a state that the operations accept and return. *)
Definition tty_valid (t : tty_t) : Prop := tty_inv t ∧ tty_wf t.

(** The history that [tty_clear] leaves: every cell is empty. *)
Definition blank_history : list Z :=
  replicate (Z.to_nat HISTORY_SIZE) EMPTY_CHAR.

(** The cells from [begin] to [begin + k] of [h] made empty, the others
    kept. *)
Definition blanked (h : list Z) (begin k : Z) : list Z :=
  take (Z.to_nat begin) h ++ replicate (Z.to_nat k) EMPTY_CHAR
    ++ drop (Z.to_nat (begin + k)) h.

(** The history after the eviction of a console whose viewport ends with the
    history: all the cells but those of one row are loaded from two rows
    further, the last of them from past the end of the array, and the last
    row is made empty. *)
Definition evicted (h : list Z) : list Z :=
  (load h <$> seqZ (VGA_WIDTH * 2) (HISTORY_SIZE - VGA_WIDTH))
    ++ replicate (Z.to_nat VGA_WIDTH) EMPTY_CHAR.

(** What is expected of the escape handler: on a valid console it returns,
    and it returns a valid console. *)
Definition ansi_handle_ok : Prop :=
  ∀ t d buffer i count, tty_valid t → vga_wf d →
    ∃ t' d' k, ansi_handle t d buffer i count = Some (t', d', k) ∧
               tty_valid t' ∧ vga_wf d'.

End Console.

#[global] Arguments size_t : simpl never.
#[global] Arguments vgapos_t : simpl never.
#[global] Arguments load : simpl never.
#[global] Arguments store : simpl never.
#[global] Arguments memmove : simpl never.
#[global] Arguments tty_clear_portion : simpl never.
#[global] Arguments update_tty : simpl never.
#[global] Arguments tty_fix_pos : simpl never.
#[global] Arguments evict : simpl never.
#[global] Arguments tty_cursor_forward : simpl never.
#[global] Arguments tty_cursor_backward : simpl never.
#[global] Arguments tty_newline : simpl never.
#[global] Arguments tty_putchar : simpl never.
#[global] Arguments tty_erase : simpl never.

(** ** The keyboard hook and the initialization

    Modelled from the spec: the key codes [KEY_Q], [KEY_W] and [KEY_S] and
    the keyboard service ([keyboard_is_ctrl_enabled],
    [keyboard_is_shift_enabled], [keyboard_get_char]) belong to the keyboard
    driver, and [TTYS_COUNT] to tty.h, which are missing from the sources.
    The codes and the count are the fields of a class; the state of the
    service is a record, which the hook reads. *)

Class keyboard_h := {
  KEY_Q : Z;
  KEY_W : Z;
  KEY_S : Z;
  TTYS_COUNT : nat
}.

Record keyboard := mk_keyboard {
  keyboard_is_ctrl_enabled : bool;
  keyboard_is_shift_enabled : bool;
  keyboard_get_char : Z → bool → Z
}.

Section Hooks.
Context `{cfg : tty_h} `{keys : keyboard_h}.
Variable beyond : Z → Z.

(** The cells of the history that the viewport shows. *)
Definition viewport (t : tty_t) : list Z :=
  take (Z.to_nat (VGA_WIDTH * VGA_HEIGHT))
    (drop (Z.to_nat (VGA_WIDTH * screen_y t)) (history t)).

(** The bytes of a buffer written one after the other, each followed by a
    redraw: what the loop of [tty_write] does to bytes that are no escape
    byte. *)
Fixpoint write_bytes (bytes : list Z) (tty : tty_t) (d : devices)
  : option (tty_t * devices) :=
  match bytes with
  | [] => Some (tty, d)
  | c :: bytes =>
    '(tty, d) ← tty_putchar beyond c tty false d;
    d ← update_tty beyond tty d;
    write_bytes bytes tty d
  end.

(** The kernel after an operation on [*current_tty]: the console is stored
    back in its place. *)
Definition set_current (tty : tty_t) (d : devices) (k : kernel) : kernel :=
  mk_kernel (<[current_tty k := tty]> (ttys k)) (current_tty k) d.

Definition tty_input_hook (kbd : keyboard) (code : Z) (k : kernel)
  : option kernel :=
  if keyboard_is_ctrl_enabled kbd then
    if decide (code = KEY_Q) then
      tty ← ttys k !! current_tty k;
      let tty := set_freeze false tty in
      d ← update_tty beyond tty (hw k);
      Some (set_current tty d k)
    else if decide (code = KEY_W) then
      tty ← ttys k !! current_tty k;
      '(tty, d) ← tty_erase beyond tty (prompted_chars tty) (hw k);
      Some (set_current tty d k)
    else if decide (code = KEY_S) then
      tty ← ttys k !! current_tty k;
      Some (set_current (set_freeze true tty) (hw k) k)
    else Some k
  else
    let shift := keyboard_is_shift_enabled kbd in
    let c := keyboard_get_char kbd code shift in
    tty ← ttys k !! current_tty k;
    '(tty, d) ← tty_putchar beyond c tty (negb (freeze tty)) (hw k);
    let tty :=
      if decide (c = 10) then set_prompted_chars 0 tty
      else set_prompted_chars (size_t (prompted_chars tty + 1)) tty in
    Some (set_current tty d k).

(** A console after [bzero]. *)
Definition zeroed_tty : tty_t :=
  mk_tty 0 0 0 0 (replicate (Z.to_nat HISTORY_SIZE) 0) 0 false.

(** Modelled from the spec: [switch_tty] is not in the sources; switching
    changes only which console is the current one. *)
Definition switch_tty (i : nat) (k : kernel) : kernel :=
  mk_kernel (ttys k) i (hw k).

(** [vga_enable_cursor], of the display driver: the devices of this model
    hold nothing that it changes. *)
Definition vga_enable_cursor (d : devices) : devices := d.

(** [tty_init] overwrites the registry: of the kernel before, the devices
    alone matter. *)
Definition tty_init (k : kernel) : option kernel :=
  let k := mk_kernel (replicate TTYS_COUNT zeroed_tty) (current_tty k) (hw k) in
  let k := mk_kernel
    (set_current_color (vgacolor_t VGA_DEFAULT_COLOR) <$> ttys k)
    (current_tty k) (hw k) in
  let k := switch_tty 0 k in
  let k := mk_kernel (ttys k) (current_tty k) (vga_enable_cursor (hw k)) in
  tty ← ttys k !! current_tty k;
  '(tty, d) ← tty_clear beyond tty (hw k);
  Some (set_current tty d k).

End Hooks.

#[global] Arguments tty_input_hook : simpl never.
#[global] Arguments tty_init : simpl never.

(** ** A concrete console

    The geometry of the spec's scenario: a viewport of 80 x 25 cells over a
    history of 200 lines, tabs of 8 columns, a 16-bit [vgapos_t], light grey
    on black as the default color and a blank in that color as the empty
    cell. *)
Definition vga_text_mode : tty_h := {|
  VGA_WIDTH := 80;
  VGA_HEIGHT := 25;
  VGA_DEFAULT_COLOR := 7;
  HISTORY_LINES := 200;
  EMPTY_CHAR := 0x0720;
  TAB_SIZE := 8;
  ANSI_ESCAPE := 27;
  POS_BITS := 16
|}.

(** Surrounding memory that reads as zero. *)
Definition zero_memory : Z → Z := λ _, 0.

(** An escape handler that consumes the escape byte alone and changes
    nothing. *)
Definition skip_escape (tty : tty_t) (d : devices) (buffer : list Z)
    (i count : nat) : option (tty_t * devices * nat) :=
  Some (tty, d, 0%nat).

(** A console as [tty_init] and [tty_clear] leave it, in that geometry, and
    the same console with its cursor at [(x, y)] over the rows that start at
    [top]. *)
Definition fresh_tty : tty_t :=
  mk_tty 0 0 0 7 (replicate (Z.to_nat 16000) 0x0720) 0 false.

Definition tty_at (x y top : Z) (h : list Z) : tty_t :=
  mk_tty x y top 7 h 0 false.

(** A history in which each cell holds its own index. *)
Definition numbered_history : list Z := seqZ 0 16000.

(** Two prompted characters before the cursor at (5, 3). *)
Definition prompt_of_two : tty_t :=
  set_prompted_chars 2 (tty_at 5 3 0 numbered_history).

(** A console that satisfies the invariants, with its viewport on the last
    25 rows of the history. *)
Definition tty_at_end : tty_t := tty_at 0 24 175 numbered_history.

(** A frozen console. *)
Definition frozen_tty : tty_t := set_freeze true fresh_tty.

(** A console that writes white on blue. *)
Definition white_on_blue : tty_t := mk_tty 0 0 0 0x1f [] 0 false.

(** The key codes of a PC keyboard, and eight consoles. *)
Definition pc_keyboard : keyboard_h := {|
  KEY_Q := 0x10;
  KEY_W := 0x11;
  KEY_S := 0x1f;
  TTYS_COUNT := 8
|}.

(** A keyboard that gives a key code as its character, with the control key
    released or held. *)
Definition typing : keyboard := mk_keyboard false false (λ code _, code).
Definition ctrl_held : keyboard := mk_keyboard true false (λ code _, code).

(** A display that shows nothing yet. *)
Definition dark_display : devices := mk_devices (replicate (Z.to_nat 2000) 0) (0, 0) 0.

(** The console at the end of its history, after one more eviction. *)
Definition tty_evicted : tty_t :=
  set_history (evicted (cfg:=vga_text_mode) zero_memory (history tty_at_end))
    tty_at_end.

(** A frozen console with two prompted characters before its cursor. *)
Definition frozen_prompt : tty_t :=
  set_prompted_chars 2 (mk_tty 5 3 0 7 (history fresh_tty) 0 true).

(** A registry of two consoles, the first of which is the current one. *)
Definition two_consoles (t : tty_t) : kernel :=
  mk_kernel [t; fresh_tty] 0 dark_display.

(** Eighty-five prompted characters before the cursor at (5, 24), in the
    last row of a viewport on the last rows of the history; and as many
    before the cursor at (5, 3), at the top of the history. *)
Definition typed_at_end : tty_t :=
  set_prompted_chars 85 (tty_at 5 24 175 numbered_history).

Definition typed_at_top : tty_t :=
  set_prompted_chars 85 (tty_at 5 3 0 numbered_history).

(** Two prompted characters before the cursor at (5, 3) of a viewport on
    the last rows of the history. *)
Definition prompt_at_end : tty_t :=
  set_prompted_chars 2 (tty_at 5 3 175 numbered_history).

(** * Properties *)

(** ** Machine integers *)

Section Integers.
Context `{cfg : tty_h}.

Lemma half_pos : 1 ≤ POS_BITS → 0 < 2 ^ (POS_BITS - 1).
Proof. intros. apply Z.pow_pos_nonneg; lia. Qed.

Lemma pow_double : 1 ≤ POS_BITS → 2 ^ POS_BITS = 2 * 2 ^ (POS_BITS - 1).
Proof.
  intros. rewrite <- Z.pow_succ_r by lia. f_equal. lia.
Qed.

Lemma vgapos_t_range z :
  1 ≤ POS_BITS → - 2 ^ (POS_BITS - 1) ≤ vgapos_t z < 2 ^ (POS_BITS - 1).
Proof.
  intros Hb. unfold vgapos_t. pose proof (half_pos Hb).
  pose proof (Z.mod_pos_bound (z + 2 ^ (POS_BITS - 1)) (2 ^ POS_BITS)).
  rewrite (pow_double Hb) in *. lia.
Qed.

Lemma vgapos_t_id z :
  1 ≤ POS_BITS → - 2 ^ (POS_BITS - 1) ≤ z < 2 ^ (POS_BITS - 1) →
  vgapos_t z = z.
Proof.
  intros Hb Hz. unfold vgapos_t. rewrite Z.mod_small; [lia|].
  rewrite (pow_double Hb). lia.
Qed.

Lemma pow31 : tty_h_ok → 2 ^ (POS_BITS - 1) ≤ 2147483648.
Proof.
  intros []. change 2147483648 with (2 ^ 31).
  apply Z.pow_le_mono_r; lia.
Qed.

End Integers.

(** ** Attributes *)

Section Attributes.

(** [tty_set_fgcolor] replaces the whole attribute by the color: nothing of
    the attribute before is kept, the background included. *)
Lemma tty_set_fgcolor_color t color :
  0 ≤ color < 256 → current_color (tty_set_fgcolor t color) = color.
Proof.
  intros Hc. unfold tty_set_fgcolor. simpl. unfold vgacolor_t, int_not.
  change (- (255 mod 2 ^ 8) - 1) with (Z.lnot (Z.ones 8)).
  rewrite <- Z.ldiff_land, Z.ldiff_ones_r by lia.
  rewrite Z.shiftl_mul_pow2 by lia. rewrite Z.mod_mul by lia.
  rewrite Z.lor_0_l. apply Z.mod_small. lia.
Qed.

(** [tty_set_bgcolor] keeps the foreground, the four low bits of the
    attribute. *)
Lemma tty_set_bgcolor_foreground t color :
  Z.land (current_color (tty_set_bgcolor t color)) 0xf
  = Z.land (current_color t) 0xf.
Proof.
  unfold tty_set_bgcolor. simpl. unfold vgacolor_t, int_not.
  change (- (Z.shiftl 255 4 mod 2 ^ 8) - 1) with (-241).
  apply Z.bits_inj'. intros n Hn. rewrite !Z.land_spec.
  change 15 with (Z.ones 4).
  destruct (decide (n < 4)) as [Hlt|Hge].
  - rewrite Z.ones_spec_low, !andb_true_r by lia.
    rewrite Z.mod_pow2_bits_low by lia. rewrite Z.lor_spec.
    rewrite Z.mod_pow2_bits_low by lia.
    rewrite Z.shiftl_spec_low, orb_false_r by lia.
    rewrite Z.land_spec.
    assert (Z.testbit (-241) n = true) as ->; [|by rewrite andb_true_r].
    assert (n = 0 ∨ n = 1 ∨ n = 2 ∨ n = 3) as [->|[->|[->| ->]]] by lia;
      reflexivity.
  - by rewrite Z.ones_spec_high, !andb_false_r by lia.
Qed.

End Attributes.

(** ** The result monad *)

Lemma bind_Some_l {A B} (x : A) (f : A → option B) : Some x ≫= f = f x.
Proof. reflexivity. Qed.

(** One step of a computation whose first operation has returned. *)
Ltac ret_step := rewrite bind_Some_l; cbv beta iota.

(** ** Memory *)

Section Memory.
Context `{cfg : tty_h}.
Variable beyond : Z → Z.

Lemma size_t_id z : 0 ≤ z < 2 ^ 32 → size_t z = z.
Proof. intros. unfold size_t. by apply Z.mod_small. Qed.

Lemma size_t_nonneg z : 0 ≤ size_t z.
Proof. unfold size_t. apply Z.mod_pos_bound. lia. Qed.

Lemma store_length a i v a' : store a i v = Some a' → length a' = length a.
Proof.
  unfold store. case_decide; [|done]. intros [= <-]. apply length_insert.
Qed.

Lemma memmove_length a dst from src n a' :
  0 ≤ n → memmove beyond a dst from src n = Some a' → length a' = length a.
Proof.
  intros Hn. unfold memmove. case_decide; [by intros [= <-]|].
  case_decide; [|done]. intros [= <-].
  rewrite !length_app, length_fmap, length_seqZ, length_take, length_drop.
  lia.
Qed.

Lemma tty_clear_portion_length a off size a' :
  0 ≤ size → tty_clear_portion a off size = Some a' → length a' = length a.
Proof.
  intros Hn. unfold tty_clear_portion. case_decide; [by intros [= <-]|].
  case_decide; [|done]. intros [= <-].
  rewrite !length_app, length_replicate, length_take, length_drop. lia.
Qed.

Lemma memmove_is_Some a dst from src n :
  0 ≤ dst → dst + n ≤ Z.of_nat (length a) →
  is_Some (memmove beyond a dst from src n).
Proof. intros. unfold memmove. repeat case_decide; eauto; lia. Qed.

Lemma tty_clear_portion_is_Some a off size :
  0 ≤ off → off + size ≤ Z.of_nat (length a) →
  is_Some (tty_clear_portion a off size).
Proof. intros. unfold tty_clear_portion. repeat case_decide; eauto; lia. Qed.

End Memory.

(** ** The cursor engine *)

Section Engine.
Context `{cfg : tty_h}.
Variable beyond : Z → Z.

Lemma tty_fix_pos_steps t :
  tty_fix_pos beyond t =
  evict beyond (clamp_screen (scroll_down (scroll_up (wrap_right (wrap_left t))))).
Proof. reflexivity. Qed.

Hypothesis Hok : tty_h_ok.

Lemma wrap_cursor_x t :
  0 ≤ cursor_x (wrap_right (wrap_left t)) < VGA_WIDTH.
Proof.
  destruct Hok. pose proof (half_pos (cfg:=cfg) ltac:(lia)) as Hh.
  assert (0 ≤ cursor_x (wrap_left t) < 2 * VGA_WIDTH ∨
          0 ≤ cursor_x (wrap_left t) ∧ cursor_x (wrap_left t) = cursor_x t)
    as Hl.
  { unfold wrap_left. case_decide; simpl; [left|right; lia].
    assert (VGA_WIDTH ≠ 0) as Hw by lia.
    pose proof (Z.rem_bound_abs (vgapos_t (- cursor_x t)) VGA_WIDTH Hw).
    rewrite vgapos_t_id; lia. }
  unfold wrap_right. case_decide; simpl; [|lia].
  assert (0 ≤ cursor_x (wrap_left t)) as Hnn by lia.
  assert (0 < VGA_WIDTH) as Hw by lia.
  pose proof (Z.rem_bound_pos (cursor_x (wrap_left t)) VGA_WIDTH Hnn Hw).
  rewrite vgapos_t_id; lia.
Qed.

Lemma scroll_cursor_y t :
  0 ≤ cursor_y (scroll_down (scroll_up t)) < VGA_HEIGHT.
Proof.
  destruct Hok. pose proof (half_pos (cfg:=cfg) ltac:(lia)) as Hh.
  unfold scroll_down, scroll_up.
  repeat case_decide; simpl in *; try rewrite vgapos_t_id; lia.
Qed.

Lemma scroll_cursor_x t : cursor_x (scroll_down (scroll_up t)) = cursor_x t.
Proof. unfold scroll_down, scroll_up. by repeat case_decide. Qed.

Lemma clamp_screen_fields t :
  cursor_x (clamp_screen t) = cursor_x t ∧
  cursor_y (clamp_screen t) = cursor_y t ∧ 0 ≤ screen_y (clamp_screen t).
Proof. unfold clamp_screen. case_decide; simpl; lia. Qed.

Lemma evict_fields t t' :
  evict beyond t = Some t' →
  cursor_x t' = cursor_x t ∧ cursor_y t' = cursor_y t ∧
  (0 ≤ screen_y t → 0 ≤ screen_y t') ∧
  screen_y t' + VGA_HEIGHT ≤ HISTORY_LINES.
Proof.
  destruct Hok. pose proof (half_pos (cfg:=cfg) ltac:(lia)) as Hh.
  unfold evict. case_decide; intros He; simplify_option_eq; simpl.
  - rewrite vgapos_t_id; lia.
  - lia.
Qed.

(** Whatever the console it is given, [tty_fix_pos] returns a console that
    satisfies the invariants. *)
Lemma tty_fix_pos_inv t t' : tty_fix_pos beyond t = Some t' → tty_inv t'.
Proof.
  rewrite tty_fix_pos_steps. intros He.
  apply evict_fields in He as (Hx & Hy & Hs & Hb).
  destruct (clamp_screen_fields
              (scroll_down (scroll_up (wrap_right (wrap_left t)))))
    as (Hx' & Hy' & Hs').
  unfold tty_inv. rewrite Hx, Hy, Hx', Hy', scroll_cursor_x.
  pose proof (wrap_cursor_x t).
  pose proof (scroll_cursor_y (wrap_right (wrap_left t))).
  auto.
Qed.

Lemma evict_frame t t' :
  evict beyond t = Some t' →
  same_attrs t t' ∧ length (history t') = length (history t).
Proof.
  unfold evict, same_attrs. case_decide; [|by intros [= <-]].
  intros He. apply bind_Some in He as (h1 & Hm & He).
  apply bind_Some in He as (h2 & Hc & He). injection He as <-. simpl.
  apply memmove_length in Hm;
    [|apply Z.div_pos; [apply size_t_nonneg|done]].
  apply tty_clear_portion_length in Hc; [|apply size_t_nonneg].
  split; [done|congruence].
Qed.

Lemma steps_frame t :
  let t' := clamp_screen (scroll_down (scroll_up (wrap_right (wrap_left t)))) in
  same_attrs t t' ∧ history t' = history t.
Proof.
  assert (∀ a b c : tty_t,
            same_attrs a b ∧ history b = history a →
            same_attrs b c ∧ history c = history b →
            same_attrs a c ∧ history c = history a) as Htrans
    by (unfold same_attrs; intuition congruence).
  assert (∀ a, same_attrs a (wrap_left a) ∧ history (wrap_left a) = history a)
    as H1 by (intros a; unfold wrap_left, same_attrs; by case_decide).
  assert (∀ a, same_attrs a (wrap_right a)
               ∧ history (wrap_right a) = history a)
    as H2 by (intros a; unfold wrap_right, same_attrs; by case_decide).
  assert (∀ a, same_attrs a (scroll_up a) ∧ history (scroll_up a) = history a)
    as H3 by (intros a; unfold scroll_up, same_attrs; by case_decide).
  assert (∀ a, same_attrs a (scroll_down a)
               ∧ history (scroll_down a) = history a)
    as H4 by (intros a; unfold scroll_down, same_attrs; by case_decide).
  assert (∀ a, same_attrs a (clamp_screen a)
               ∧ history (clamp_screen a) = history a)
    as H5 by (intros a; unfold clamp_screen, same_attrs; by case_decide).
  intros t'. unfold t'.
  eapply Htrans; [|apply H5]. eapply Htrans; [|apply H4].
  eapply Htrans; [|apply H3]. eapply Htrans; [|apply H2]. apply H1.
Qed.

Lemma tty_fix_pos_frame t t' :
  tty_fix_pos beyond t = Some t' →
  same_attrs t t' ∧ length (history t') = length (history t).
Proof.
  rewrite tty_fix_pos_steps. intros He. apply evict_frame in He.
  pose proof (steps_frame t) as Hs. simpl in Hs.
  unfold same_attrs in *. destruct He as ((? & ? & ?) & ?).
  destruct Hs as ((? & ? & ?) & Hh). rewrite Hh in *.
  repeat split; congruence.
Qed.

Lemma tty_fix_pos_wf t t' :
  tty_fix_pos beyond t = Some t' → tty_wf t → tty_wf t'.
Proof.
  intros Hf. apply tty_fix_pos_frame in Hf as [_ Hl].
  unfold tty_wf. by rewrite Hl.
Qed.

(** A console inside the invariants, and not at the end of its history, is
    left as it is. *)
Lemma tty_fix_pos_interior t :
  tty_inv t → screen_y t + VGA_HEIGHT < HISTORY_LINES →
  tty_fix_pos beyond t = Some t.
Proof.
  intros (Hx & Hy & Hs & Hb) Hlt. rewrite tty_fix_pos_steps.
  assert (wrap_left t = t) as -> by (unfold wrap_left; case_decide; [lia|done]).
  assert (wrap_right t = t) as ->
    by (unfold wrap_right; case_decide; [lia|done]).
  assert (scroll_up t = t) as -> by (unfold scroll_up; case_decide; [lia|done]).
  assert (scroll_down t = t) as ->
    by (unfold scroll_down; case_decide; [lia|done]).
  assert (clamp_screen t = t) as ->
    by (unfold clamp_screen; case_decide; [lia|done]).
  unfold evict. case_decide; [lia|done].
Qed.

(** The eviction step has a result as long as the viewport is at most one
    row past the end of the history. *)
Lemma evict_is_Some t :
  tty_wf t → 0 ≤ screen_y t →
  screen_y t + VGA_HEIGHT ≤ HISTORY_LINES + 1 →
  is_Some (evict beyond t).
Proof.
  destruct Hok. pose proof (half_pos (cfg:=cfg) ltac:(lia)) as Hh.
  assert (2 ^ (POS_BITS - 1) ≤ 2 ^ 31) as H31
    by (apply Z.pow_le_mono_r; lia).
  change (2 ^ 31) with 2147483648 in H31.
  unfold tty_wf, HISTORY_SIZE. intros Hwf Hs Hb. unfold evict.
  case_decide; [|eauto].
  assert (screen_y t + VGA_HEIGHT = HISTORY_LINES ∨
          screen_y t + VGA_HEIGHT = HISTORY_LINES + 1) as [He|He] by lia.
  - replace (HISTORY_LINES - (screen_y t + VGA_HEIGHT) + 1) with 1 by lia.
    rewrite Z.mul_1_r, (size_t_id VGA_WIDTH) by lia.
    unfold HISTORY_SIZE, sizeof_uint16_t.
    rewrite (size_t_id (VGA_WIDTH * HISTORY_LINES * 2 - VGA_WIDTH * 2))
      by nia.
    replace ((VGA_WIDTH * HISTORY_LINES * 2 - VGA_WIDTH * 2) / 2)
      with (VGA_WIDTH * HISTORY_LINES - VGA_WIDTH)
      by (apply Z.div_unique_exact; lia).
    destruct (memmove_is_Some beyond (history t) 0 (history t)
                (size_t (VGA_WIDTH * 2))
                (VGA_WIDTH * HISTORY_LINES - VGA_WIDTH))
      as [h1 Hm]; [lia|nia|].
    rewrite Hm. simpl.
    apply memmove_length in Hm; [|nia].
    destruct (tty_clear_portion_is_Some h1
                (VGA_WIDTH * HISTORY_LINES - VGA_WIDTH) VGA_WIDTH)
      as [h2 Hc]; [nia|lia|].
    rewrite Hc. simpl. eauto.
  - replace (HISTORY_LINES - (screen_y t + VGA_HEIGHT) + 1) with 0 by lia.
    rewrite Z.mul_0_r. change (size_t 0) with 0. rewrite Z.mul_0_l, Z.sub_0_r.
    unfold HISTORY_SIZE, sizeof_uint16_t.
    rewrite (size_t_id (VGA_WIDTH * HISTORY_LINES * 2)) by nia.
    rewrite Z.div_mul by done.
    destruct (memmove_is_Some beyond (history t) 0 (history t) (size_t 0)
                (VGA_WIDTH * HISTORY_LINES))
      as [h1 Hm]; [lia|lia|].
    rewrite Hm. simpl. eauto.
Qed.

Lemma tty_fix_pos_near t :
  tty_wf t → near t →
  ∃ t', tty_fix_pos beyond t = Some t' ∧ tty_inv t' ∧ tty_wf t' ∧
        same_attrs t t'.
Proof.
  intros Hwf (Hx & Hy & Hq & Hs & Hb).
  assert (is_Some (tty_fix_pos beyond t)) as [t' Hf].
  { rewrite tty_fix_pos_steps. destruct Hok.
    pose proof (half_pos (cfg:=cfg) ltac:(lia)) as Hh.
    assert (0 < VGA_WIDTH) as Hw by lia.
    assert (0 ≤ cursor_x t) as Hx0 by lia.
    pose proof (Z.quot_pos (cursor_x t) VGA_WIDTH Hx0 Hw) as Hq0.
    assert (wrap_left t = t) as ->
      by (unfold wrap_left; case_decide; [lia|done]).
    set (t2 := wrap_right t).
    assert (0 ≤ cursor_y t2 ≤ VGA_HEIGHT ∧ screen_y t2 = screen_y t ∧
            history t2 = history t) as (Hy2 & Hs2 & Hh2).
    { unfold t2, wrap_right. case_decide; simpl.
      - rewrite vgapos_t_id by lia. split_and!; done || lia.
      - assert (Z.quot (cursor_x t) VGA_WIDTH = 0)
          by (apply Z.quot_small; lia). split_and!; done || lia. }
    assert (scroll_up t2 = t2) as ->
      by (unfold scroll_up; case_decide; [lia|done]).
    set (t4 := scroll_down t2).
    assert (0 ≤ screen_y t4 ∧
            screen_y t4 + VGA_HEIGHT ≤ HISTORY_LINES + 1 ∧
            history t4 = history t) as (Hs4 & Hb4 & Hh4).
    { unfold t4, scroll_down. case_decide; simpl.
      - rewrite vgapos_t_id by lia. split_and!; done || lia.
      - split_and!; done || lia. }
    assert (clamp_screen t4 = t4) as ->
      by (unfold clamp_screen; case_decide; [lia|done]).
    apply evict_is_Some; [|done..]. unfold tty_wf. by rewrite Hh4. }
  exists t'. split; [done|].
  split; [by apply tty_fix_pos_inv in Hf|].
  split; [by apply (tty_fix_pos_wf t)|].
  by apply tty_fix_pos_frame in Hf as [? _].
Qed.

Lemma tty_putchar_inv c t update d t' d' :
  tty_putchar beyond c t update d = Some (t', d') → tty_inv t'.
Proof.
  unfold tty_putchar. intros H.
  apply bind_Some in H as ([t0 d0] & _ & H).
  apply bind_Some in H as (t1 & Hf & H).
  apply tty_fix_pos_inv in Hf.
  destruct update.
  - apply bind_Some in H as (d1 & _ & H). by injection H as <- <-.
  - by injection H as <- <-.
Qed.

Lemma run_op_inv op s s' : run_op beyond op s = Some s' → tty_inv s'.1.
Proof.
  destruct s as [t d], s' as [t' d'].
  destruct op; cbn [run_op fst snd].
  - unfold tty_cursor_forward. intros H.
    apply bind_Some in H as (t1 & Hf & H). injection H as <- <-.
    by apply tty_fix_pos_inv in Hf.
  - unfold tty_cursor_backward. intros H.
    apply bind_Some in H as (t1 & Hf & H). injection H as <- <-.
    by apply tty_fix_pos_inv in Hf.
  - apply tty_putchar_inv.
  - unfold tty_newline. intros H.
    apply bind_Some in H as (t1 & Hf & H). injection H as <- <-.
    by apply tty_fix_pos_inv in Hf.
Qed.

(** C1. After any non-empty sequence of relative cursor moves (forward or
    backward, by any deltas), writes of a byte and newlines on any console,
    once the last normalization has returned, the cursor is inside the
    viewport ([0 <= cursor_x < VGA_WIDTH], [0 <= cursor_y < VGA_HEIGHT]) and
    the viewport is inside the history ([0 <= screen_y] and
    [screen_y + VGA_HEIGHT <= HISTORY_LINES]). *)
Theorem run_ops_inv ops s s' :
  ops ≠ [] → run_ops beyond ops s = Some s' → tty_inv s'.1.
Proof.
  revert s. induction ops as [|op ops IH]; intros s Hne Hrun; [done|].
  cbn [run_ops] in Hrun. apply bind_Some in Hrun as (s1 & Hop & Hrun).
  destruct ops as [|op' ops'].
  - cbn [run_ops] in Hrun. injection Hrun as <-. by apply run_op_inv in Hop.
  - by apply (IH s1).
Qed.

End Engine.

(** ** What the eviction step and the left wrap compute *)

Section Eviction.
Context `{cfg : tty_h}.
Variable beyond : Z → Z.
Hypothesis Hok : tty_h_ok.

Lemma evict_boundary t :
  tty_wf t → screen_y t + VGA_HEIGHT = HISTORY_LINES →
  evict beyond t =
    Some (set_screen_y (HISTORY_LINES - VGA_HEIGHT)
            (set_history (evicted beyond (history t)) t)).
Proof.
  destruct Hok. pose proof (half_pos (cfg:=cfg) ltac:(lia)) as Hh.
  pose proof (pow31 Hok) as H31.
  assert (2 * VGA_WIDTH ≤ VGA_WIDTH * HISTORY_LINES) as Hrows by nia.
  unfold tty_wf, HISTORY_SIZE. intros Hwf He. unfold evict.
  rewrite decide_True by lia.
  replace (HISTORY_LINES - (screen_y t + VGA_HEIGHT) + 1) with 1 by lia.
  rewrite Z.mul_1_r, (size_t_id VGA_WIDTH) by lia.
  unfold HISTORY_SIZE, sizeof_uint16_t.
  rewrite (size_t_id (VGA_WIDTH * HISTORY_LINES * 2 - VGA_WIDTH * 2)) by nia.
  rewrite (size_t_id (VGA_WIDTH * 2)) by lia.
  replace ((VGA_WIDTH * HISTORY_LINES * 2 - VGA_WIDTH * 2) / 2)
    with (VGA_WIDTH * HISTORY_LINES - VGA_WIDTH)
    by (apply Z.div_unique_exact; lia).
  unfold memmove. rewrite decide_False by nia. rewrite decide_True by nia.
  ret_step.
  change (take (Z.to_nat 0) (history t)) with (@nil Z). rewrite app_nil_l.
  set (L := load beyond (history t) <$> _).
  assert (length L = Z.to_nat (VGA_WIDTH * HISTORY_LINES - VGA_WIDTH)) as HL
    by (unfold L; by rewrite length_fmap, length_seqZ).
  unfold tty_clear_portion. rewrite decide_False by lia.
  rewrite decide_True
    by (rewrite length_app, length_drop, HL; lia).
  ret_step. rewrite take_app_length' by done.
  rewrite drop_ge by (rewrite length_app, length_drop, HL; lia).
  rewrite app_nil_r. rewrite vgapos_t_id by lia. done.
Qed.

(** Each cell of the evicted history that comes from the array comes from
    two rows below, not one. *)
Lemma evicted_lookup h i :
  Z.of_nat (length h) = HISTORY_SIZE →
  0 ≤ i < HISTORY_SIZE - 2 * VGA_WIDTH →
  evicted beyond h !! Z.to_nat i = h !! Z.to_nat (i + 2 * VGA_WIDTH).
Proof.
  destruct Hok. pose proof (pow31 Hok) as H31.
  assert (2 * VGA_WIDTH ≤ VGA_WIDTH * HISTORY_LINES) as Hrows by nia.
  unfold HISTORY_SIZE. intros Hlen Hi. unfold evicted.
  rewrite lookup_app_l
    by (rewrite length_fmap, length_seqZ; unfold HISTORY_SIZE; lia).
  rewrite list_lookup_fmap, lookup_seqZ_lt by (unfold HISTORY_SIZE; lia).
  simpl. unfold load. rewrite Z2Nat.id by lia.
  rewrite Z.mod_small by lia.
  replace (VGA_WIDTH * 2 + i) with (i + 2 * VGA_WIDTH) by lia.
  destruct (lookup_lt_is_Some_2 h (Z.to_nat (i + 2 * VGA_WIDTH)))
    as [v Hv]; [lia|].
  by rewrite Hv.
Qed.

(** The row before the last holds what follows the array in memory. *)
Lemma evicted_past_end h i :
  Z.of_nat (length h) = HISTORY_SIZE →
  HISTORY_SIZE + VGA_WIDTH ≤ 2 ^ 31 →
  HISTORY_SIZE - 2 * VGA_WIDTH ≤ i < HISTORY_SIZE - VGA_WIDTH →
  evicted beyond h !! Z.to_nat i = Some (beyond (i + 2 * VGA_WIDTH)).
Proof.
  destruct Hok.
  assert (2 * VGA_WIDTH ≤ VGA_WIDTH * HISTORY_LINES) as Hrows by nia.
  unfold HISTORY_SIZE. intros Hlen H31 Hi. unfold evicted.
  change (2 ^ 31) with 2147483648 in H31.
  rewrite lookup_app_l
    by (rewrite length_fmap, length_seqZ; unfold HISTORY_SIZE; lia).
  rewrite list_lookup_fmap, lookup_seqZ_lt by (unfold HISTORY_SIZE; lia).
  simpl. unfold load. rewrite Z2Nat.id by lia.
  rewrite Z.mod_small by lia.
  replace (VGA_WIDTH * 2 + i) with (i + 2 * VGA_WIDTH) by lia.
  by rewrite lookup_ge_None_2 by lia.
Qed.

(** The last row of the evicted history is empty. *)
Lemma evicted_last_row h i :
  HISTORY_SIZE - VGA_WIDTH ≤ i < HISTORY_SIZE →
  evicted beyond h !! Z.to_nat i = Some EMPTY_CHAR.
Proof.
  destruct Hok. unfold HISTORY_SIZE. intros Hi. unfold evicted.
  assert (2 * VGA_WIDTH ≤ VGA_WIDTH * HISTORY_LINES) as Hrows by nia.
  rewrite lookup_app_r
    by (rewrite length_fmap, length_seqZ; unfold HISTORY_SIZE; lia).
  apply lookup_replicate_2.
  rewrite length_fmap, length_seqZ. unfold HISTORY_SIZE. lia.
Qed.

(** Copying the whole array onto itself changes nothing. *)
Lemma load_all h :
  Z.of_nat (length h) < 2 ^ 31 →
  load beyond h <$> seqZ 0 (Z.of_nat (length h)) = h.
Proof.
  intros Hlen. change (2 ^ 31) with 2147483648 in Hlen.
  apply list_eq. intros i. rewrite list_lookup_fmap.
  destruct (decide (i < length h)%nat) as [Hi|Hi].
  - rewrite lookup_seqZ_lt by lia. simpl. unfold load.
    rewrite Z.add_0_l, Z.mod_small, Nat2Z.id by lia.
    destruct (lookup_lt_is_Some_2 h i Hi) as [v Hv]. by rewrite Hv.
  - rewrite lookup_ge_None_2 by (rewrite length_seqZ; lia).
    by rewrite lookup_ge_None_2 by lia.
Qed.

(** With the viewport one row past the end of the history, the eviction
    step discards nothing: [diff] is 0, and [screen_y] alone is pinned. *)
Lemma evict_one_past t :
  tty_wf t → screen_y t + VGA_HEIGHT = HISTORY_LINES + 1 →
  evict beyond t = Some (set_screen_y (HISTORY_LINES - VGA_HEIGHT) t).
Proof.
  destruct Hok. pose proof (half_pos (cfg:=cfg) ltac:(lia)) as Hh.
  pose proof (pow31 Hok) as H31.
  assert (2 * VGA_WIDTH ≤ VGA_WIDTH * HISTORY_LINES) as Hrows by nia.
  unfold tty_wf, HISTORY_SIZE. intros Hwf He. unfold evict.
  rewrite decide_True by lia.
  replace (HISTORY_LINES - (screen_y t + VGA_HEIGHT) + 1) with 0 by lia.
  rewrite Z.mul_0_r. change (size_t 0) with 0. rewrite Z.mul_0_l, Z.sub_0_r.
  change (size_t 0) with 0.
  unfold HISTORY_SIZE, sizeof_uint16_t.
  rewrite (size_t_id (VGA_WIDTH * HISTORY_LINES * 2)) by nia.
  rewrite Z.div_mul by done.
  unfold memmove. rewrite decide_False by lia. rewrite decide_True by lia.
  ret_step. rewrite <- Hwf at 1. rewrite load_all by lia.
  change (take (Z.to_nat 0) (history t)) with (@nil Z). rewrite app_nil_l.
  rewrite drop_ge, app_nil_r by lia.
  unfold tty_clear_portion. rewrite decide_True by done. ret_step.
  rewrite vgapos_t_id by lia. by destruct t.
Qed.

(** Normalization of a console that satisfies the invariants, with its
    viewport at the end of the history: the cursor and the viewport stay,
    and the history is evicted once more. *)
Lemma tty_fix_pos_boundary t :
  tty_inv t → tty_wf t → screen_y t + VGA_HEIGHT = HISTORY_LINES →
  tty_fix_pos beyond t = Some (set_history (evicted beyond (history t)) t).
Proof.
  intros (Hx & Hy & Hs & Hb) Hwf He. rewrite tty_fix_pos_steps.
  assert (wrap_left t = t) as -> by (unfold wrap_left; case_decide; [lia|done]).
  assert (wrap_right t = t) as ->
    by (unfold wrap_right; case_decide; [lia|done]).
  assert (scroll_up t = t) as -> by (unfold scroll_up; case_decide; [lia|done]).
  assert (scroll_down t = t) as ->
    by (unfold scroll_down; case_decide; [lia|done]).
  assert (clamp_screen t = t) as ->
    by (unfold clamp_screen; case_decide; [lia|done]).
  rewrite evict_boundary by done. f_equal.
  replace (HISTORY_LINES - VGA_HEIGHT) with (screen_y t) by lia.
  by destruct t.
Qed.

(** From column 0 of a row that is not the last, moving back by the width of
    the viewport moves the cursor to column 0 of the row below. *)
Lemma tty_cursor_backward_width t :
  tty_inv t → cursor_x t = 0 → cursor_y t + 1 < VGA_HEIGHT →
  screen_y t + VGA_HEIGHT < HISTORY_LINES →
  tty_cursor_backward beyond t VGA_WIDTH 0 =
    Some (set_cursor_y (cursor_y t + 1) t).
Proof.
  intros (Hx & Hy & Hs & Hb) Hx0 Hy1 Hlt. destruct Hok.
  pose proof (half_pos (cfg:=cfg) ltac:(lia)) as Hh.
  unfold tty_cursor_backward. cbn [cursor_x cursor_y set_cursor_x].
  rewrite Hx0, Z.sub_0_r, Z.sub_0_l. rewrite !vgapos_t_id by lia.
  rewrite tty_fix_pos_steps.
  set (t0 := set_cursor_y _ _).
  assert (wrap_left t0 = set_cursor_x VGA_WIDTH t) as ->.
  { unfold wrap_left, t0. simpl. rewrite decide_True by lia.
    rewrite Z.opp_involutive. rewrite (vgapos_t_id VGA_WIDTH) by lia.
    rewrite Z.rem_same, Z.quot_same by lia.
    rewrite !vgapos_t_id by lia. destruct t.
    unfold set_cursor_x, set_cursor_y. simpl in *. f_equal; lia. }
  assert (wrap_right (set_cursor_x VGA_WIDTH t)
          = set_cursor_y (cursor_y t + 1) t) as ->.
  { unfold wrap_right. simpl. rewrite decide_True by lia.
    rewrite Z.rem_same, Z.quot_same by lia.
    rewrite !vgapos_t_id by lia. destruct t.
    unfold set_cursor_x, set_cursor_y. simpl in *. f_equal; lia. }
  set (t2 := set_cursor_y _ t).
  assert (scroll_up t2 = t2) as ->
    by (unfold scroll_up, t2; simpl; case_decide; [lia|done]).
  assert (scroll_down t2 = t2) as ->
    by (unfold scroll_down, t2; simpl; case_decide; [lia|done]).
  assert (clamp_screen t2 = t2) as ->
    by (unfold clamp_screen, t2; simpl; case_decide; [lia|done]).
  unfold evict. rewrite decide_False; [done|]. unfold t2. simpl. lia.
Qed.

End Eviction.

(** ** The write pipeline *)

Section Pipeline.
Context `{cfg : tty_h}.
Variable beyond : Z → Z.
Variable ansi_handle :
  tty_t → devices → list Z → nat → nat → option (tty_t * devices * nat).
Hypothesis Hok : tty_h_ok.

Lemma tty_fix_pos_valid t :
  tty_valid t → ∃ t', tty_fix_pos beyond t = Some t' ∧ tty_valid t' ∧
                      same_attrs t t'.
Proof.
  intros [(Hx & Hy & Hs & Hb) Hwf]. destruct Hok.
  destruct (tty_fix_pos_near beyond Hok t Hwf) as (t' & Hf & ? & ? & ?).
  - assert (Z.quot (cursor_x t) VGA_WIDTH = 0) by (apply Z.quot_small; lia).
    unfold near. lia.
  - exists t'. split; [done|]. split; [by split|done].
Qed.

Lemma tty_cursor_forward_valid t x :
  tty_valid t → 0 ≤ x ≤ VGA_WIDTH →
  ∃ t', tty_cursor_forward beyond t x 0 = Some t' ∧ tty_valid t' ∧
        same_attrs t t'.
Proof.
  intros [(Hx & Hy & Hs & Hb) Hwf] Hd. destruct Hok.
  pose proof (half_pos (cfg:=cfg) ltac:(lia)) as Hh.
  unfold tty_cursor_forward. cbn [cursor_x cursor_y set_cursor_x].
  rewrite (vgapos_t_id (cursor_x t + x)), (vgapos_t_id (cursor_y t + 0))
    by lia.
  rewrite Z.add_0_r.
  destruct (tty_fix_pos_near beyond Hok
              (set_cursor_y (cursor_y t) (set_cursor_x (cursor_x t + x) t)))
    as (t' & Hf & ? & ? & ?); [done| |].
  - unfold near. simpl.
    assert (Z.quot (cursor_x t + x) VGA_WIDTH < 2)
      by (apply Z.quot_lt_upper_bound; lia).
    lia.
  - exists t'. split; [done|]. split; [by split|done].
Qed.

Lemma tty_newline_valid t :
  tty_valid t →
  ∃ t', tty_newline beyond t = Some t' ∧ tty_valid t' ∧ same_attrs t t'.
Proof.
  intros [(Hx & Hy & Hs & Hb) Hwf]. destruct Hok.
  pose proof (half_pos (cfg:=cfg) ltac:(lia)) as Hh.
  unfold tty_newline. cbn [cursor_x cursor_y set_cursor_x].
  rewrite (vgapos_t_id (cursor_y t + 1)) by lia.
  destruct (tty_fix_pos_near beyond Hok
              (set_cursor_y (cursor_y t + 1) (set_cursor_x 0 t)))
    as (t' & Hf & ? & ? & ?); [done| |].
  - unfold near. simpl. rewrite Z.quot_0_l by lia. lia.
  - exists t'. split; [done|]. split; [by split|done].
Qed.

(** The renderer draws any valid console on a display of the right size. *)
Lemma update_tty_valid t d :
  tty_valid t → vga_wf d →
  ∃ d', update_tty beyond t d = Some d' ∧ vga_wf d' ∧ beeps d' = beeps d.
Proof.
  intros [(Hx & Hy & Hs & Hb) Hwf] Hd. destruct Hok. pose proof (pow31 Hok).
  unfold update_tty, vga_wf in *. rewrite decide_True by done.
  unfold sizeof_uint16_t.
  rewrite size_t_id, Z.div_mul by nia.
  destruct (memmove_is_Some beyond (VGA_BUFFER d) 0 (history t)
              (VGA_WIDTH * screen_y t) (VGA_WIDTH * VGA_HEIGHT))
    as [buf Hm]; [lia|lia|].
  rewrite Hm. eexists. split; [done|]. simpl.
  apply memmove_length in Hm; [|nia]. split; [|done]. by rewrite Hm.
Qed.

Lemma HISTORY_POS_range t :
  tty_valid t →
  0 ≤ HISTORY_POS (screen_y t) (cursor_x t) (cursor_y t)
    < Z.of_nat (length (history t)).
Proof.
  intros [(Hx & Hy & Hs & Hb) Hwf]. destruct Hok.
  unfold tty_wf, HISTORY_SIZE in Hwf. rewrite Hwf. unfold HISTORY_POS. nia.
Qed.

Lemma GET_TAB_SIZE_range x : 0 ≤ x → 0 < GET_TAB_SIZE x ≤ TAB_SIZE.
Proof.
  intros Hx. destruct Hok. unfold GET_TAB_SIZE.
  assert (0 < TAB_SIZE) as Ht by lia.
  pose proof (Z.rem_bound_pos x TAB_SIZE Hx Ht). lia.
Qed.

(** The end of [tty_putchar]: one more normalization, and the redraw when it
    is asked for. *)
Lemma tty_putchar_end t0 d0 (update : bool) :
  tty_valid t0 → vga_wf d0 →
  ∃ t' d',
    (tty ← tty_fix_pos beyond t0;
     if update then d ← update_tty beyond tty d0; Some (tty, d)
     else Some (tty, d0)) = Some (t', d') ∧
    tty_valid t' ∧ vga_wf d' ∧ same_attrs t0 t'.
Proof.
  intros Ht Hd. destruct (tty_fix_pos_valid t0 Ht) as (t1 & -> & Ht1 & Ha).
  ret_step. destruct update.
  - destruct (update_tty_valid t1 d0 Ht1 Hd) as (d1 & -> & Hd1 & _).
    ret_step. by eexists _, _.
  - by eexists _, _.
Qed.

Lemma same_attrs_trans t1 t2 t3 :
  same_attrs t1 t2 → same_attrs t2 t3 → same_attrs t1 t3.
Proof. unfold same_attrs. intuition congruence. Qed.

(** Writing any byte on a valid console returns a valid console. *)
Lemma tty_putchar_valid c t update d :
  tty_valid t → vga_wf d →
  ∃ t' d', tty_putchar beyond c t update d = Some (t', d') ∧
           tty_valid t' ∧ vga_wf d' ∧ same_attrs t t'.
Proof.
  intros Ht Hd. unfold tty_putchar. repeat case_decide.
  - ret_step. by apply tty_putchar_end.
  - destruct Hok. pose proof (pow31 Hok).
    assert (0 ≤ cursor_x t) as Hx by (destruct Ht as [(? & ?) ?]; lia).
    pose proof (GET_TAB_SIZE_range (cursor_x t) Hx) as Hr.
    rewrite size_t_id by lia.
    destruct (tty_cursor_forward_valid t (GET_TAB_SIZE (cursor_x t)) Ht)
      as (t0 & -> & Ht0 & Ha); [lia|].
    ret_step.
    destruct (tty_putchar_end t0 d update Ht0 Hd)
      as (t' & d' & He & Ht' & Hd' & Ha').
    exists t', d'. split; [exact He|]. split; [exact Ht'|].
    split; [exact Hd'|]. exact (same_attrs_trans t t0 t' Ha Ha').
  - destruct (tty_newline_valid t Ht) as (t0 & -> & Ht0 & Ha).
    ret_step.
    destruct (tty_putchar_end t0 d update Ht0 Hd)
      as (t' & d' & He & Ht' & Hd' & Ha').
    exists t', d'. split; [exact He|]. split; [exact Ht'|].
    split; [exact Hd'|]. exact (same_attrs_trans t t0 t' Ha Ha').
  - ret_step.
    assert (tty_valid (set_cursor_x 0 t)) as Ht0.
    { destruct Hok, Ht as [(Hx & Hy & Hs & Hb) Hwf].
      split; [|done]. unfold tty_inv. simpl. lia. }
    destruct (tty_putchar_end (set_cursor_x 0 t) d update Ht0 Hd)
      as (t' & d' & ? & ? & ? & ?).
    by exists t', d'.
  - pose proof (HISTORY_POS_range t Ht) as Hp.
    unfold store. rewrite decide_True by done. ret_step.
    set (h := <[_ := _]> (history t)).
    assert (tty_valid (set_history h t)) as Hth.
    { destruct Ht as [Hi Hwf]. split; [done|].
      unfold tty_wf, h in *. simpl. by rewrite length_insert. }
    destruct Hok.
    destruct (tty_cursor_forward_valid (set_history h t) 1 Hth)
      as (t0 & -> & Ht0 & Ha); [lia|].
    ret_step.
    destruct (tty_putchar_end t0 d update Ht0 Hd)
      as (t' & d' & He & Ht' & Hd' & Ha').
    exists t', d'. split; [exact He|]. split; [exact Ht'|].
    split; [exact Hd'|]. exact (same_attrs_trans t t0 t' Ha Ha').
Qed.

Lemma tty_write_loop_valid fuel buffer count i t d :
  ansi_handle_ok ansi_handle →
  (count ≤ length buffer)%nat → (count ≤ fuel + i)%nat →
  tty_valid t → vga_wf d →
  ∃ t' d', tty_write_loop beyond ansi_handle fuel buffer count i t d
             = Some (t', d') ∧ tty_valid t' ∧ vga_wf d'.
Proof.
  intros Hansi Hlen. revert i t d.
  induction fuel as [|fuel IH]; intros i t d Hfuel Ht Hd.
  - simpl. rewrite decide_False by lia. by eexists _, _.
  - simpl. case_decide as Hi; [|by eexists _, _].
    destruct (lookup_lt_is_Some_2 buffer i ltac:(lia)) as [c ->].
    ret_step.
    assert (∃ t1 d1 i1,
      (if decide (c ≠ ANSI_ESCAPE)
       then '(tty, d0) ← tty_putchar beyond c t false d; Some (tty, d0, i)
       else '(tty, d0, k) ← ansi_handle t d buffer i count;
            Some (tty, d0, (i + k)%nat)) = Some (t1, d1, i1) ∧
      tty_valid t1 ∧ vga_wf d1 ∧ (i ≤ i1)%nat)
      as (t1 & d1 & i1 & -> & Ht1 & Hd1 & Hi1).
    { case_decide.
      - destruct (tty_putchar_valid c t false d Ht Hd)
          as (t1 & d1 & -> & ? & ? & ?).
        ret_step. by eexists _, _, _.
      - destruct (Hansi t d buffer i count Ht Hd)
          as (t1 & d1 & k & -> & ? & ?).
        ret_step. eexists _, _, _.
        split_and!; [done..|lia]. }
    ret_step.
    destruct (update_tty_valid t1 d1 Ht1 Hd1) as (d2 & -> & Hd2 & _).
    ret_step. apply IH; [lia|done..].
Qed.

(** C8. [tty_write] returns at once, leaving the console and the display as
    they are, when the buffer is null, when the count is zero and when the
    console is null.  On every other input (a buffer of at least [count]
    bytes, a valid console, a display of the size of the viewport, and an
    escape handler that returns) it returns as well, with a console: there
    is no failure. *)
Theorem tty_write_returns buffer count tty d :
  ansi_handle_ok ansi_handle →
  tty_write beyond ansi_handle None count tty d = Some (tty, d) ∧
  tty_write beyond ansi_handle buffer 0 tty d = Some (tty, d) ∧
  tty_write beyond ansi_handle buffer count None d = Some (None, d) ∧
  ∀ buf t, buffer = Some buf → tty = Some t →
    (count ≤ length buf)%nat → tty_valid t → vga_wf d →
    ∃ t' d', tty_write beyond ansi_handle buffer count tty d
               = Some (Some t', d') ∧ tty_valid t' ∧ vga_wf d'.
Proof.
  intros Hansi. split_and!.
  - done.
  - by destruct buffer, tty.
  - by destruct buffer.
  - intros buf t -> -> Hlen Ht Hd. unfold tty_write. case_decide as Hc.
    + subst count. by eexists _, _.
    + destruct (tty_write_loop_valid count buf count 0 t d Hansi Hlen
                  ltac:(lia) Ht Hd) as (t' & d' & -> & ? & ?).
      ret_step. by eexists _, _.
Qed.

End Pipeline.

(** ** Clearing and erasing *)

Section Editor.
Context `{cfg : tty_h}.
Variable beyond : Z → Z.
Hypothesis Hok : tty_h_ok.

(** C9. [tty_clear] puts the cursor at the origin, the viewport at the top
    of the history and the empty cell in every cell of the history; the
    current color, the count of prompted characters and the freeze flag
    are those of the console before. *)
Theorem tty_clear_resets t d :
  tty_wf t → vga_wf d →
  ∃ d', tty_clear beyond t d =
          Some (mk_tty 0 0 0 (current_color t) blank_history
                  (prompted_chars t) (freeze t), d').
Proof.
  intros Hwf Hd. destruct Hok. pose proof (pow31 Hok).
  unfold tty_wf, HISTORY_SIZE in Hwf.
  unfold tty_clear. cbn [history set_cursor_x set_cursor_y set_screen_y].
  unfold tty_clear_portion, HISTORY_SIZE.
  rewrite decide_False by nia. rewrite decide_True by lia.
  rewrite drop_ge by lia. rewrite app_nil_r. ret_step.
  change (take (Z.to_nat 0) (history t)) with (@nil Z).
  rewrite app_nil_l.
  unfold set_history, set_screen_y, set_cursor_y, set_cursor_x.
  cbn [cursor_x cursor_y screen_y current_color prompted_chars freeze].
  fold HISTORY_SIZE. fold blank_history.
  set (t' := mk_tty 0 0 0 _ _ _ _).
  assert (tty_valid t') as Ht'.
  { split.
    - unfold tty_inv, t'. simpl. lia.
    - unfold tty_wf, t', blank_history. simpl.
      rewrite length_replicate. unfold HISTORY_SIZE. nia. }
  destruct (update_tty_valid beyond Hok t' d Ht' Hd) as (d' & -> & _).
  ret_step. by exists d'.
Qed.

(** Moving back inside the row, away from the end of the history, changes
    the column alone. *)
Lemma tty_cursor_backward_row t k :
  tty_inv t → screen_y t + VGA_HEIGHT < HISTORY_LINES →
  0 ≤ k ≤ cursor_x t →
  tty_cursor_backward beyond t k 0 = Some (set_cursor_x (cursor_x t - k) t).
Proof.
  intros (Hx & Hy & Hs & Hb) Hlt Hk. destruct Hok.
  pose proof (half_pos (cfg:=cfg) ltac:(lia)) as Hh.
  unfold tty_cursor_backward. cbn [cursor_x cursor_y set_cursor_x].
  rewrite (vgapos_t_id (cursor_x t - k)), (vgapos_t_id (cursor_y t - 0))
    by lia.
  rewrite Z.sub_0_r.
  replace (set_cursor_y (cursor_y t) (set_cursor_x (cursor_x t - k) t))
    with (set_cursor_x (cursor_x t - k) t) by (by destruct t).
  apply tty_fix_pos_interior; [|done].
  unfold tty_inv. simpl. lia.
Qed.

Lemma tty_cursor_backward_eq t x y :
  tty_cursor_backward beyond t x y =
  tty_fix_pos beyond
    (set_cursor_y (vgapos_t (cursor_y t - y))
       (set_cursor_x (vgapos_t (cursor_x t - x)) t)).
Proof. unfold tty_cursor_backward. reflexivity. Qed.

Lemma tty_erase_eq t n d k :
  prompted_chars t = k → 0 < k → k ≤ n →
  tty_erase beyond t n d =
    (tty ← tty_cursor_backward beyond t k 0;
     let begin := vgapos_t
       (HISTORY_POS (screen_y tty) (cursor_x tty) (cursor_y tty)) in
     h ← erase_cells (history tty) begin k;
     let tty := set_history h tty in
     d ← (if negb (freeze tty) then update_tty beyond tty d else Some d);
     Some (set_prompted_chars (size_t (prompted_chars tty - k)) tty, d)).
Proof.
  intros Hk Hpos Hn. unfold tty_erase. rewrite decide_False by lia.
  assert ((if decide (n > prompted_chars t) then prompted_chars t else n) = k)
    as -> by (case_decide; lia).
  reflexivity.
Qed.

Lemma erase_cells_blanked a begin k :
  0 ≤ begin → 0 < k → begin + k ≤ Z.of_nat (length a) →
  Z.of_nat (length a) < 2 ^ (POS_BITS - 1) →
  erase_cells a (vgapos_t begin) k = Some (blanked a begin k).
Proof.
  intros Hb Hk Hend Hfit. destruct Hok. pose proof (pow31 Hok).
  pose proof (half_pos (cfg:=cfg) ltac:(lia)) as Hh.
  rewrite vgapos_t_id by lia.
  unfold erase_cells. rewrite (size_t_id begin) by lia.
  rewrite (size_t_id (begin + k)) by lia.
  rewrite decide_True by lia.
  replace (begin + k - begin) with k by lia.
  unfold tty_clear_portion. rewrite decide_False by lia.
  by rewrite decide_True by lia.
Qed.

(** Cells past the end of the array cannot be made empty. *)
Lemma erase_cells_outside a begin k :
  0 ≤ begin → 0 < k → Z.of_nat (length a) < begin + k →
  begin + k < 2 ^ (POS_BITS - 1) →
  erase_cells a (vgapos_t begin) k = None.
Proof.
  intros Hb Hk Hend Hfit. destruct Hok. pose proof (pow31 Hok).
  pose proof (half_pos (cfg:=cfg) ltac:(lia)) as Hh.
  rewrite vgapos_t_id by lia.
  unfold erase_cells. rewrite (size_t_id begin) by lia.
  rewrite (size_t_id (begin + k)) by lia.
  rewrite decide_True by lia.
  replace (begin + k - begin) with k by lia.
  unfold tty_clear_portion. rewrite decide_False by lia.
  by rewrite decide_False by lia.
Qed.

(** When the cells that follow the cursor after the move back are fewer
    than the count, the loop of [tty_erase] leaves the history. *)
Lemma tty_erase_outside t n d k t1 :
  prompted_chars t = k → 0 < k → k ≤ n →
  tty_cursor_backward beyond t k 0 = Some t1 →
  0 ≤ HISTORY_POS (screen_y t1) (cursor_x t1) (cursor_y t1) →
  Z.of_nat (length (history t1))
    < HISTORY_POS (screen_y t1) (cursor_x t1) (cursor_y t1) + k →
  HISTORY_POS (screen_y t1) (cursor_x t1) (cursor_y t1) + k
    < 2 ^ (POS_BITS - 1) →
  tty_erase beyond t n d = None.
Proof.
  intros Hk Hpos Hn Hback Hb Hend Hfit.
  rewrite (tty_erase_eq t n d k Hk Hpos Hn), Hback. ret_step. cbv zeta.
  by rewrite erase_cells_outside.
Qed.

Lemma tty_erase_some t n d k t1 :
  prompted_chars t = k → 0 < k → k ≤ n → tty_wf t → vga_wf d →
  tty_cursor_backward beyond t k 0 = Some t1 →
  HISTORY_POS (screen_y t1) (cursor_x t1) (cursor_y t1) + k ≤ HISTORY_SIZE →
  ∃ d',
    tty_erase beyond t n d =
      Some (set_prompted_chars 0
              (set_history
                 (blanked (history t1)
                    (HISTORY_POS (screen_y t1) (cursor_x t1) (cursor_y t1)) k)
                 t1), d') ∧
    (freeze t = true → d' = d).
Proof.
  intros Hk Hpos Hn Hwf Hd Hback Hend. destruct Hok. pose proof (pow31 Hok).
  assert (tty_inv t1 ∧ tty_wf t1 ∧ same_attrs t t1) as (Hi1 & Hwf1 & Ha1).
  { pose proof Hback as Hfix. rewrite tty_cursor_backward_eq in Hfix.
    split; [exact (tty_fix_pos_inv beyond Hok _ _ Hfix)|].
    split; [exact (tty_fix_pos_wf beyond _ _ Hfix Hwf)|].
    by apply tty_fix_pos_frame in Hfix as [? _]. }
  rewrite (tty_erase_eq t n d k Hk Hpos Hn), Hback. ret_step. cbv zeta.
  unfold tty_wf in Hwf1. unfold HISTORY_SIZE in *.
  rewrite erase_cells_blanked; [|
    destruct Hi1 as (? & ? & ? & ?); unfold HISTORY_POS; nia|lia|lia|lia].
  ret_step.
  set (h := blanked _ _ _).
  assert (tty_valid (set_history h t1)) as Ht2.
  { split; [done|]. unfold tty_wf, h, blanked, HISTORY_SIZE. simpl.
    rewrite !length_app, length_replicate, length_take, length_drop.
    assert (0 ≤ HISTORY_POS (screen_y t1) (cursor_x t1) (cursor_y t1))
      by (destruct Hi1 as (? & ? & ? & ?); unfold HISTORY_POS; nia).
    lia. }
  destruct Ha1 as (_ & Hp1 & Hf1).
  replace (prompted_chars (set_history h t1)) with k by (simpl; congruence).
  rewrite Z.sub_diag.
  replace (freeze (set_history h t1)) with (freeze t) by (simpl; congruence).
  destruct (freeze t); cbn [negb].
  - ret_step. by exists d.
  - destruct (update_tty_valid beyond Hok _ d Ht2 Hd) as (d' & -> & _).
    ret_step. by exists d'.
Qed.

(** Where [tty_erase] does what its contract says.  With no prompted
    character it changes nothing: cursor, history and count stay as they
    are.  With [k] prompted characters and a count above [k], when the move
    back by [k] columns returns and the [k] cells from the new position of
    the cursor are inside the history, those cells are made empty, and no
    other, and no prompted character is left; on a valid console before the
    end of its history whose [k] characters are in the row of the cursor,
    the cells are the [k] cells of the history before the cursor. *)
Theorem tty_erase_clamps t n d :
  (prompted_chars t = 0 → tty_erase beyond t n d = Some (t, d)) ∧
  (∀ k t1,
     prompted_chars t = k → 0 < k < n → tty_wf t → vga_wf d →
     tty_cursor_backward beyond t k 0 = Some t1 →
     HISTORY_POS (screen_y t1) (cursor_x t1) (cursor_y t1) + k
       ≤ HISTORY_SIZE →
     ∃ d',
       tty_erase beyond t n d =
         Some (set_prompted_chars 0
                 (set_history
                    (blanked (history t1)
                       (HISTORY_POS (screen_y t1) (cursor_x t1) (cursor_y t1))
                       k) t1), d') ∧
       tty_erase beyond t k d = tty_erase beyond t n d) ∧
  (∀ k,
     prompted_chars t = k → 0 < k < n → tty_valid t → vga_wf d →
     screen_y t + VGA_HEIGHT < HISTORY_LINES → k ≤ cursor_x t →
     ∃ d',
       tty_erase beyond t n d =
         Some (set_prompted_chars 0
                 (set_history
                    (blanked (history t)
                       (HISTORY_POS (screen_y t) (cursor_x t - k) (cursor_y t))
                       k) (set_cursor_x (cursor_x t - k) t)), d')).
Proof.
  split_and!.
  - intros H0. unfold tty_erase. by rewrite decide_True.
  - intros k t1 Hk Hkn Hwf Hd Hback Hend.
    destruct (tty_erase_some t n d k t1 Hk ltac:(lia) ltac:(lia) Hwf Hd Hback
                Hend) as (d' & He & _).
    exists d'. split; [done|].
    by rewrite (tty_erase_eq t k d k), (tty_erase_eq t n d k) by (done || lia).
  - intros k Hk Hkn [Hi Hwf] Hd Hlt Hcx.
    pose proof (tty_cursor_backward_row t k Hi Hlt ltac:(lia)) as Hback.
    destruct (tty_erase_some t n d k _ Hk ltac:(lia) ltac:(lia) Hwf Hd Hback)
      as (d' & He & _).
    + destruct Hok, Hi as (? & ? & ? & ?).
      unfold HISTORY_POS, HISTORY_SIZE. simpl. nia.
    + by exists d'.
Qed.

End Editor.

(** ** The control hook *)

(** C10. Whatever the key code, [tty_ctrl_hook] leaves the consoles, the
    current console and the devices as they are. *)
Theorem tty_ctrl_hook_noop (code : Z) (k : kernel) :
  tty_ctrl_hook code k = k.
Proof. reflexivity. Qed.

(** ** Evaluations on the concrete console *)

Section Evaluations.
#[local] Existing Instance vga_text_mode.

(** Goals of linear arithmetic over the constants of the geometry. *)
Ltac geometry :=
  unfold HISTORY_SIZE;
  change VGA_WIDTH with 80; change VGA_HEIGHT with 25;
  change HISTORY_LINES with 200; lia.

Lemma vga_text_mode_ok : tty_h_ok.
Proof. split; vm_compute; intuition congruence. Qed.

Lemma skip_escape_ok : ansi_handle_ok skip_escape.
Proof. intros t d buffer i count Ht Hd. by exists t, d, 0%nat. Qed.

Lemma fresh_tty_valid : tty_valid fresh_tty.
Proof. split; [vm_compute; intuition congruence|vm_compute; reflexivity]. Qed.

Lemma dark_display_wf : vga_wf dark_display.
Proof. vm_compute. reflexivity. Qed.

Lemma numbered_history_length : Z.of_nat (length numbered_history) = 16000.
Proof. unfold numbered_history. rewrite length_seqZ. lia. Qed.

Lemma numbered_history_lookup i :
  0 ≤ i < 16000 → numbered_history !! Z.to_nat i = Some i.
Proof.
  intros Hi. unfold numbered_history.
  rewrite lookup_seqZ_lt by lia. f_equal. lia.
Qed.

Lemma tty_at_valid x y top :
  0 ≤ x < 80 → 0 ≤ y < 25 → 0 ≤ top ≤ 175 →
  tty_valid (tty_at x y top numbered_history).
Proof.
  intros Hx Hy Htop. split.
  - unfold tty_inv, tty_at. cbn [cursor_x cursor_y screen_y].
    change VGA_WIDTH with 80. change VGA_HEIGHT with 25.
    change HISTORY_LINES with 200. lia.
  - exact numbered_history_length.
Qed.

Lemma evicted_numbered beyond i :
  0 ≤ i < 15840 →
  evicted beyond numbered_history !! Z.to_nat i = Some (i + 160).
Proof.
  intros Hi.
  rewrite (evicted_lookup beyond vga_text_mode_ok).
  - change (i + 2 * VGA_WIDTH) with (i + 2 * 80).
    rewrite numbered_history_lookup by lia. reflexivity.
  - exact numbered_history_length.
  - change (HISTORY_SIZE - 2 * VGA_WIDTH) with 15840. lia.
Qed.

Lemma run_ops_inv_witness :
  ∃ s', run_ops zero_memory
          [Putchar 65 false; Newline; Backward 3 0; Forward 100 2;
           Putchar 9 true]
          (fresh_tty, dark_display) = Some s' ∧
        tty_inv s'.1.
Proof.
  eexists. split; [vm_compute; reflexivity|].
  eapply (run_ops_inv zero_memory vga_text_mode_ok
            [Putchar 65 false; Newline; Backward 3 0; Forward 100 2;
             Putchar 9 true]
            (fresh_tty, dark_display)); [done|].
  vm_compute. reflexivity.
Defined.

Lemma tty_clear_resets_witness :
  ∃ d', tty_clear zero_memory (tty_at 3 4 5 numbered_history) dark_display =
          Some (mk_tty 0 0 0 (current_color (tty_at 3 4 5 numbered_history))
                  blank_history
                  (prompted_chars (tty_at 3 4 5 numbered_history))
                  (freeze (tty_at 3 4 5 numbered_history)), d').
Proof.
  apply (tty_clear_resets zero_memory vga_text_mode_ok
           (tty_at 3 4 5 numbered_history) dark_display).
  - exact numbered_history_length.
  - exact dark_display_wf.
Defined.

Lemma tty_erase_clamps_witness :
  ∃ d', tty_erase zero_memory prompt_of_two 7 dark_display =
          Some (set_prompted_chars 0
                  (set_history
                     (blanked (history prompt_of_two)
                        (HISTORY_POS (screen_y prompt_of_two)
                           (cursor_x prompt_of_two - 2)
                           (cursor_y prompt_of_two)) 2)
                     (set_cursor_x (cursor_x prompt_of_two - 2)
                        prompt_of_two)), d').
Proof.
  destruct (tty_erase_clamps zero_memory vga_text_mode_ok prompt_of_two 7
              dark_display) as (_ & _ & H).
  apply (H 2).
  - reflexivity.
  - lia.
  - apply (tty_at_valid 5 3 0); lia.
  - exact dark_display_wf.
  - reflexivity.
  - discriminate.
Defined.

Lemma tty_write_returns_witness :
  ∃ t' d', tty_write zero_memory skip_escape (Some [72; 105; 27; 10]) 4
             (Some fresh_tty) dark_display = Some (Some t', d') ∧
           tty_valid t' ∧ vga_wf d'.
Proof.
  destruct (tty_write_returns zero_memory skip_escape vga_text_mode_ok
              (Some [72; 105; 27; 10]) 4%nat (Some fresh_tty) dark_display
              skip_escape_ok) as (_ & _ & _ & H).
  apply (H [72; 105; 27; 10] fresh_tty eq_refl eq_refl).
  - simpl. lia.
  - exact fresh_tty_valid.
  - exact dark_display_wf.
Defined.

(** C2. The eviction step of the code, on a console whose viewport ends
    with the history (the case in which the guard of the step holds and one
    row is computed for [diff]): [screen_y] is pinned at
    [HISTORY_LINES - VGA_HEIGHT] and the last row is made empty, but the
    content is moved up by two rows, not by one: cell 0 receives the content
    of cell 160, the first cell of row 2, and the row before the last
    receives the memory that follows the array. *)
Theorem tty_fix_pos_evicts_two_rows (beyond : Z → Z) :
  ∃ t', tty_fix_pos beyond tty_at_end = Some t' ∧
        screen_y t' = 175 ∧
        history tty_at_end !! Z.to_nat 80 = Some 80 ∧
        history tty_at_end !! Z.to_nat 160 = Some 160 ∧
        history t' !! Z.to_nat 0 = Some 160 ∧
        history t' !! Z.to_nat 15840 = Some (beyond 16000) ∧
        history t' !! Z.to_nat 15920 = Some EMPTY_CHAR.
Proof.
  assert (tty_valid tty_at_end) as [Hi Hwf] by (apply tty_at_valid; lia).
  exists (set_history (evicted beyond (history tty_at_end)) tty_at_end).
  split; [exact (tty_fix_pos_boundary beyond vga_text_mode_ok tty_at_end
                   Hi Hwf eq_refl)|].
  split; [reflexivity|].
  split; [apply (numbered_history_lookup 80); lia|].
  split; [apply (numbered_history_lookup 160); lia|].
  split; [apply (evicted_numbered beyond 0); lia|].
  split.
  - apply (evicted_past_end beyond vga_text_mode_ok numbered_history 15840).
    + exact numbered_history_length.
    + geometry.
    + geometry.
  - apply (evicted_last_row beyond vga_text_mode_ok numbered_history 15920).
    geometry.
Qed.

(** C3. From (0, 5) on a console that satisfies the invariants, the code of
    [tty_cursor_backward] with a horizontal delta of [VGA_WIDTH] = 80 and a
    vertical delta of 0 leaves the cursor at (0, 6), the row below, and not
    at (0, 4). *)
Theorem tty_cursor_backward_width_row_below (beyond : Z → Z) :
  tty_cursor_backward beyond (tty_at 0 5 0 numbered_history) VGA_WIDTH 0
  = Some (tty_at 0 6 0 numbered_history).
Proof.
  assert (tty_valid (tty_at 0 5 0 numbered_history)) as [Hi _]
    by (apply tty_at_valid; lia).
  exact (tty_cursor_backward_width beyond vga_text_mode_ok
           (tty_at 0 5 0 numbered_history) Hi eq_refl eq_refl eq_refl).
Qed.

(** C4. A console that satisfies the invariants, with its viewport on the
    last rows of the history, is changed by the code of [tty_fix_pos]: the
    history is evicted; and a second run on the result, which satisfies the
    invariants as well, evicts it again. *)
Theorem tty_fix_pos_evicts_again (beyond : Z → Z) :
  tty_inv tty_at_end ∧
  ∃ t1 t2,
    tty_fix_pos beyond tty_at_end = Some t1 ∧
    tty_fix_pos beyond t1 = Some t2 ∧
    tty_inv t1 ∧
    history t1 ≠ history tty_at_end ∧ history t2 ≠ history t1.
Proof.
  assert (tty_valid tty_at_end) as [Hi Hwf] by (apply tty_at_valid; lia).
  split; [exact Hi|].
  pose proof (tty_fix_pos_boundary beyond vga_text_mode_ok tty_at_end Hi Hwf
                eq_refl) as H1.
  pose proof (tty_fix_pos_wf beyond _ _ H1 Hwf) as Hwf1.
  pose proof (tty_fix_pos_inv beyond vga_text_mode_ok _ _ H1) as Hi1.
  pose proof (tty_fix_pos_boundary beyond vga_text_mode_ok _ Hi1 Hwf1
                eq_refl) as H2.
  eexists _, _. split; [exact H1|]. split; [exact H2|]. split; [exact Hi1|].
  cbn [history set_history]. change (history tty_at_end) with numbered_history.
  split.
  - intros Heq. apply (f_equal (λ h, h !! Z.to_nat 0)) in Heq.
    rewrite (evicted_numbered beyond 0) in Heq by lia.
    rewrite (numbered_history_lookup 0) in Heq by lia. discriminate.
  - intros Heq. apply (f_equal (λ h, h !! Z.to_nat 0)) in Heq.
    rewrite (evicted_lookup beyond vga_text_mode_ok _ 0) in Heq;
      [|exact Hwf1|geometry].
    change (0 + 2 * VGA_WIDTH) with 160 in Heq.
    rewrite (evicted_numbered beyond 160) in Heq by lia.
    rewrite (evicted_numbered beyond 0) in Heq by lia. discriminate.
Qed.

(** The five steps of [tty_fix_pos] before the eviction, after a move back
    by 85 columns from (5, 24) over the last rows of the history, and from
    (5, 3) at its top: the cursor ends in column 0 of the row below the one
    it was in, which scrolls the viewport in the first case. *)
Lemma back_steps_at_end (h : list Z) :
  clamp_screen (scroll_down (scroll_up (wrap_right (wrap_left
    (set_cursor_y (vgapos_t (24 - 0))
       (set_cursor_x (vgapos_t (5 - 85)) (mk_tty 5 24 175 7 h 85 false)))))))
  = mk_tty 0 24 176 7 h 85 false.
Proof. vm_compute. reflexivity. Qed.

Lemma back_steps_at_top (h : list Z) :
  clamp_screen (scroll_down (scroll_up (wrap_right (wrap_left
    (set_cursor_y (vgapos_t (3 - 0))
       (set_cursor_x (vgapos_t (5 - 85)) (mk_tty 5 3 0 7 h 85 false)))))))
  = mk_tty 0 4 0 7 h 85 false.
Proof. vm_compute. reflexivity. Qed.

Lemma typed_at_end_back (beyond : Z → Z) :
  tty_cursor_backward beyond typed_at_end 85 0
  = Some (set_cursor_x 0 typed_at_end).
Proof.
  rewrite tty_cursor_backward_eq, tty_fix_pos_steps.
  etrans;
    [exact (f_equal (evict beyond) (back_steps_at_end numbered_history))|].
  rewrite (evict_one_past beyond vga_text_mode_ok).
  - reflexivity.
  - exact numbered_history_length.
  - reflexivity.
Qed.

Lemma typed_at_top_back (beyond : Z → Z) :
  tty_cursor_backward beyond typed_at_top 85 0
  = Some (set_cursor_y 4 (set_cursor_x 0 typed_at_top)).
Proof.
  rewrite tty_cursor_backward_eq, tty_fix_pos_steps.
  etrans;
    [exact (f_equal (evict beyond) (back_steps_at_top numbered_history))|].
  unfold evict. rewrite decide_False; [reflexivity|].
  cbn [screen_y]. geometry.
Qed.

(** C6. On a valid console with 85 prompted characters before its cursor at
    (5, 24), over the last rows of the history, the code of [tty_erase] with
    a count of 100 does not make the 85 characters empty: the move back by 85
    columns leaves the cursor at (0, 24), not at (0, 23), so the cells to
    make empty are those from 15920 to 16004, and the history ends at cell
    16000.  The loop stores past the end of the array: [tty_erase] has no
    result. *)
Theorem tty_erase_past_history (beyond : Z → Z) :
  tty_valid typed_at_end ∧ prompted_chars typed_at_end = 85 ∧
  tty_cursor_backward beyond typed_at_end 85 0
    = Some (set_cursor_x 0 typed_at_end) ∧
  HISTORY_POS (screen_y typed_at_end) 0 (cursor_y typed_at_end) = 15920 ∧
  Z.of_nat (length (history typed_at_end)) = 16000 ∧
  tty_erase beyond typed_at_end 100 dark_display = None.
Proof.
  split; [apply (tty_at_valid 5 24 175); lia|].
  split; [reflexivity|].
  split; [exact (typed_at_end_back beyond)|].
  split; [reflexivity|].
  split; [exact numbered_history_length|].
  apply (tty_erase_outside beyond vga_text_mode_ok typed_at_end 100
           dark_display 85 (set_cursor_x 0 typed_at_end)).
  - reflexivity.
  - lia.
  - lia.
  - exact (typed_at_end_back beyond).
  - discriminate.
  - cbn [history set_cursor_x typed_at_end set_prompted_chars tty_at].
    rewrite numbered_history_length. reflexivity.
  - reflexivity.
Qed.

(** The same count at the top of the history, where every store is inside
    the array: the cursor, at (5, 3) before, ends at (0, 4), and the cells
    made empty are the 85 cells from 320, after the cursor; the cells from
    160 to 244, before it, keep their content. *)
Example tty_erase_row_below (beyond : Z → Z) :
  ∃ d',
    tty_erase beyond typed_at_top 100 dark_display =
      Some (set_history (blanked numbered_history 320 85)
              (tty_at 0 4 0 numbered_history), d').
Proof.
  destruct (tty_erase_some beyond vga_text_mode_ok typed_at_top 100
              dark_display 85 _ eq_refl ltac:(lia) ltac:(lia)
              numbered_history_length dark_display_wf
              (typed_at_top_back beyond)) as (d' & He & _).
  - discriminate.
  - exists d'. exact He.
Qed.

(** The scenario of the spec: the three bytes 'A', newline, carriage return
    on a fresh console leave 'A' in the default color in cell (0, 0), the
    cursor at (0, 1) and the viewport at the top; the display shows it. *)
Example tty_write_A_newline_return (beyond : Z → Z) :
  ∃ t' d',
    tty_write beyond skip_escape (Some [65; 10; 13]) 3 (Some fresh_tty)
      dark_display = Some (Some t', d') ∧
    history t' !! Z.to_nat 0 = Some 0x0741 ∧
    (cursor_x t', cursor_y t', screen_y t') = (0, 1, 0) ∧
    VGA_BUFFER d' !! Z.to_nat 0 = Some 0x0741 ∧ vga_cursor d' = (0, 1).
Proof.
  eexists _, _. split; [vm_compute; reflexivity|].
  split_and!; vm_compute; reflexivity.
Qed.

(** A tab at column 75, with tabs of 8 columns, moves the cursor to column
    80, that is to column 0 of the next row. *)
Example tty_putchar_tab (beyond : Z → Z) :
  ∃ t' d',
    tty_putchar beyond 9 (tty_at 75 3 0 (history fresh_tty)) false
      dark_display = Some (t', d') ∧
    (cursor_x t', cursor_y t') = (0, 4).
Proof. eexists _, _. split; [vm_compute; reflexivity|reflexivity]. Qed.

(** A move down by two rows from the last row of a viewport at the end of
    the history has no result: the eviction step computes a negative number
    of cells, which is a huge [size_t], and stores outside of the array. *)
Example tty_cursor_forward_past_end (beyond : Z → Z) :
  tty_cursor_forward beyond (tty_at 0 24 175 (history fresh_tty)) 0 2 = None.
Proof. vm_compute. reflexivity. Qed.

(** C5. On a frozen console, the code of [tty_write] redraws: after the one
    byte 'A', the console is still frozen and the first cell of the display,
    0 before, shows the 'A' in the current color. *)
Theorem tty_write_redraws_frozen (beyond : Z → Z)
    (ansi_handle :
       tty_t → devices → list Z → nat → nat → option (tty_t * devices * nat)) :
  freeze frozen_tty = true ∧
  VGA_BUFFER dark_display !! Z.to_nat 0 = Some 0 ∧
  ∃ t' d',
    tty_write beyond ansi_handle (Some [65]) 1 (Some frozen_tty) dark_display
      = Some (Some t', d') ∧
    freeze t' = true ∧
    history t' !! Z.to_nat 0 = Some 0x0741 ∧
    VGA_BUFFER d' !! Z.to_nat 0 = Some 0x0741.
Proof.
  split; [reflexivity|]. split; [vm_compute; reflexivity|].
  eexists _, _. split; [vm_compute; reflexivity|].
  split_and!; vm_compute; reflexivity.
Qed.

(** C7. On a console that writes white (15) on blue (1), the code of
    [tty_set_fgcolor] with the color green (2) leaves the attribute 2: the
    background, blue before, is black after. *)
Theorem tty_set_fgcolor_drops_background :
  Z.shiftr (current_color white_on_blue) 4 = 1 ∧
  current_color (tty_set_fgcolor white_on_blue 2) = 2 ∧
  Z.shiftr (current_color (tty_set_fgcolor white_on_blue 2)) 4 = 0.
Proof. split_and!; reflexivity. Qed.

End Evaluations.

(** * Further properties *)

(** ** Moves of the cursor inside the history *)

Section Moves.
Context `{cfg : tty_h}.
Variable beyond : Z → Z.
Hypothesis Hok : tty_h_ok.

Lemma tty_cursor_forward_eq t x y :
  tty_cursor_forward beyond t x y =
  tty_fix_pos beyond
    (set_cursor_y (vgapos_t (cursor_y t + y))
       (set_cursor_x (vgapos_t (cursor_x t + x)) t)).
Proof. unfold tty_cursor_forward. reflexivity. Qed.

Lemma tty_newline_eq t :
  tty_newline beyond t =
  tty_fix_pos beyond
    (set_cursor_y (vgapos_t (cursor_y t + 1)) (set_cursor_x 0 t)).
Proof. unfold tty_newline. reflexivity. Qed.

(** Without eviction, [tty_fix_pos] is its first five steps. *)
Lemma tty_fix_pos_no_evict t :
  screen_y (clamp_screen (scroll_down (scroll_up (wrap_right (wrap_left t)))))
    + VGA_HEIGHT < HISTORY_LINES →
  tty_fix_pos beyond t =
    Some (clamp_screen (scroll_down (scroll_up (wrap_right (wrap_left t))))).
Proof.
  intros Hlt. rewrite tty_fix_pos_steps. unfold evict.
  by rewrite decide_False by lia.
Qed.

(** The steps that leave a console as it is. *)
Lemma wrap_left_id t : 0 ≤ cursor_x t → wrap_left t = t.
Proof. intros. unfold wrap_left. by rewrite decide_False by lia. Qed.

Lemma wrap_right_id t : cursor_x t < VGA_WIDTH → wrap_right t = t.
Proof. intros. unfold wrap_right. by rewrite decide_False by lia. Qed.

Lemma scroll_up_id t : 0 ≤ cursor_y t → scroll_up t = t.
Proof. intros. unfold scroll_up. by rewrite decide_False by lia. Qed.

Lemma scroll_down_id t : cursor_y t < VGA_HEIGHT → scroll_down t = t.
Proof. intros. unfold scroll_down. by rewrite decide_False by lia. Qed.

Lemma clamp_screen_id t : 0 ≤ screen_y t → clamp_screen t = t.
Proof. intros. unfold clamp_screen. by rewrite decide_False by lia. Qed.

(** A console whose cursor is in its rows and whose viewport is before the
    end of the history only has its column wrapped. *)
Lemma tty_fix_pos_wrap_only t :
  0 ≤ cursor_y (wrap_right (wrap_left t)) < VGA_HEIGHT →
  0 ≤ screen_y (wrap_right (wrap_left t)) →
  screen_y (wrap_right (wrap_left t)) + VGA_HEIGHT < HISTORY_LINES →
  tty_fix_pos beyond t = Some (wrap_right (wrap_left t)).
Proof.
  intros Hy Hs Hlt. rewrite tty_fix_pos_no_evict.
  - by rewrite scroll_up_id, scroll_down_id, clamp_screen_id by lia.
  - by rewrite scroll_up_id, scroll_down_id, clamp_screen_id by lia.
Qed.

Lemma forward_wrap t x :
  tty_inv t → screen_y t + VGA_HEIGHT < HISTORY_LINES →
  0 ≤ x → cursor_x t + x < 2 ^ (POS_BITS - 1) →
  cursor_y t + Z.quot (cursor_x t + x) VGA_WIDTH < VGA_HEIGHT →
  tty_cursor_forward beyond t x 0 =
    Some (set_cursor_y (cursor_y t + Z.quot (cursor_x t + x) VGA_WIDTH)
            (set_cursor_x (Z.rem (cursor_x t + x) VGA_WIDTH) t)).
Proof.
  intros (Hx & Hy & Hs & Hb) Hlt Hx0 Hfit Hrow. destruct Hok.
  pose proof (half_pos (cfg:=cfg) ltac:(lia)) as Hh.
  assert (0 < VGA_WIDTH) as Hw by lia.
  assert (0 ≤ cursor_x t + x) as Hp by lia.
  pose proof (Z.quot_pos _ _ Hp Hw) as Hq.
  pose proof (Z.rem_bound_pos _ _ Hp Hw) as Hr.
  rewrite tty_cursor_forward_eq.
  rewrite (vgapos_t_id (cursor_y t + 0)), (vgapos_t_id (cursor_x t + x))
    by lia.
  rewrite Z.add_0_r.
  set (t0 := set_cursor_y _ _).
  assert (wrap_right (wrap_left t0) =
          set_cursor_y (cursor_y t + Z.quot (cursor_x t + x) VGA_WIDTH)
            (set_cursor_x (Z.rem (cursor_x t + x) VGA_WIDTH) t)) as Hwrap.
  { rewrite wrap_left_id by (unfold t0; simpl; lia).
    unfold wrap_right, t0. simpl. case_decide as Hge.
    - rewrite !vgapos_t_id by lia. by destruct t.
    - rewrite Z.rem_small, Z.quot_small by lia. rewrite Z.add_0_r.
      by destruct t. }
  rewrite tty_fix_pos_wrap_only; rewrite Hwrap; simpl; [done|lia..].
Qed.

(** X5. On a console inside the invariants, before the end of its history
    and not in its first row, moving back by more than the column of the
    cursor and by less than a row beyond it puts the cursor in the row above,
    as many columns from its end as the move passes column 0. *)
Theorem backward_previous_row t k :
  tty_inv t → screen_y t + VGA_HEIGHT < HISTORY_LINES →
  cursor_x t < k < cursor_x t + VGA_WIDTH → 1 ≤ cursor_y t →
  tty_cursor_backward beyond t k 0 =
    Some (set_cursor_y (cursor_y t - 1)
            (set_cursor_x (VGA_WIDTH - (k - cursor_x t)) t)).
Proof.
  intros (Hx & Hy & Hs & Hb) Hlt Hk Hrow. destruct Hok.
  pose proof (half_pos (cfg:=cfg) ltac:(lia)) as Hh.
  rewrite tty_cursor_backward_eq.
  rewrite (vgapos_t_id (cursor_y t - 0)), (vgapos_t_id (cursor_x t - k))
    by lia.
  rewrite Z.sub_0_r.
  set (t0 := set_cursor_y _ _).
  assert (wrap_left t0 =
          set_cursor_y (cursor_y t - 1)
            (set_cursor_x (VGA_WIDTH - (k - cursor_x t)) t)) as Hwrap.
  { unfold wrap_left, t0. simpl. rewrite decide_True by lia.
    replace (- (cursor_x t - k)) with (k - cursor_x t) by lia.
    rewrite (vgapos_t_id (k - cursor_x t)) by lia.
    rewrite Z.rem_small, Z.quot_small by lia.
    rewrite !vgapos_t_id by lia.
    replace (cursor_y t + (0 - 1)) with (cursor_y t - 1) by lia.
    by destruct t. }
  rewrite tty_fix_pos_wrap_only; rewrite Hwrap;
    rewrite wrap_right_id by (simpl; lia); simpl; [done|lia..].
Qed.

(** X6. A newline on a console inside the invariants, before the end of its
    history and not in the last row of the viewport, puts the cursor at
    column 0 of the next row and changes nothing else. *)
Theorem newline_next_row t :
  tty_inv t → screen_y t + VGA_HEIGHT < HISTORY_LINES →
  cursor_y t + 1 < VGA_HEIGHT →
  tty_newline beyond t =
    Some (set_cursor_y (cursor_y t + 1) (set_cursor_x 0 t)).
Proof.
  intros (Hx & Hy & Hs & Hb) Hlt Hrow. destruct Hok.
  pose proof (half_pos (cfg:=cfg) ltac:(lia)) as Hh.
  rewrite tty_newline_eq. rewrite vgapos_t_id by lia.
  apply tty_fix_pos_interior; [|done].
  unfold tty_inv. simpl. lia.
Qed.

(** X7. On a console inside the invariants with at least two rows of
    history below its viewport, a newline in the last row of the viewport
    moves the viewport down by one row: the cursor goes to column 0 and stays
    in the last row, and nothing else changes; the history is not
    touched. *)
Theorem newline_scroll t :
  tty_inv t → screen_y t + VGA_HEIGHT + 1 < HISTORY_LINES →
  cursor_y t = VGA_HEIGHT - 1 →
  tty_newline beyond t =
    Some (set_screen_y (screen_y t + 1) (set_cursor_x 0 t)).
Proof.
  intros (Hx & Hy & Hs & Hb) Hlt Hrow. destruct Hok.
  pose proof (half_pos (cfg:=cfg) ltac:(lia)) as Hh.
  rewrite tty_newline_eq. rewrite vgapos_t_id by lia.
  set (t0 := set_cursor_y _ _).
  assert (scroll_down (scroll_up (wrap_right (wrap_left t0))) =
          set_screen_y (screen_y t + 1) (set_cursor_x 0 t)) as Hscroll.
  { rewrite wrap_left_id, wrap_right_id, scroll_up_id
      by (unfold t0; simpl; lia).
    unfold scroll_down, t0. simpl. rewrite decide_True by lia.
    rewrite !vgapos_t_id by lia.
    destruct t. unfold set_screen_y, set_cursor_x, set_cursor_y.
    simpl in *. f_equal; lia. }
  rewrite tty_fix_pos_no_evict; rewrite Hscroll;
    rewrite clamp_screen_id by (simpl; lia); [done|simpl; lia].
Qed.

(** X1. Whatever it does to the cursor, the viewport and the content of the
    history, [tty_fix_pos] keeps the current color, the count of prompted
    characters, the freeze flag and the length of the history. *)
Theorem fix_pos_keeps_attributes t t' :
  tty_fix_pos beyond t = Some t' →
  current_color t' = current_color t ∧
  prompted_chars t' = prompted_chars t ∧ freeze t' = freeze t ∧
  length (history t') = length (history t).
Proof.
  intros Hf. apply tty_fix_pos_frame in Hf as [(? & ? & ?) ?]. by repeat split.
Qed.

(** X2. A console that satisfies the invariants, with at least one row of
    history below its viewport, is left as it is by [tty_fix_pos]. *)
Theorem fix_pos_settled t :
  tty_inv t → screen_y t + VGA_HEIGHT < HISTORY_LINES →
  tty_fix_pos beyond t = Some t.
Proof. apply tty_fix_pos_interior. Qed.

(** X3. Moving forward by [x] columns from column [cursor_x] puts the cursor
    at column [(cursor_x + x) mod VGA_WIDTH], [(cursor_x + x) / VGA_WIDTH]
    rows below, as long as that row is in the viewport; nothing else
    changes. *)
Theorem cursor_forward_wraps t x :
  tty_inv t → screen_y t + VGA_HEIGHT < HISTORY_LINES →
  0 ≤ x → cursor_x t + x < 2 ^ (POS_BITS - 1) →
  cursor_y t + Z.quot (cursor_x t + x) VGA_WIDTH < VGA_HEIGHT →
  tty_cursor_forward beyond t x 0 =
    Some (set_cursor_y (cursor_y t + Z.quot (cursor_x t + x) VGA_WIDTH)
            (set_cursor_x (Z.rem (cursor_x t + x) VGA_WIDTH) t)).
Proof. apply forward_wrap. Qed.

(** X4. Moving back by at most the column of the cursor changes the column
    alone. *)
Theorem cursor_backward_in_row t k :
  tty_inv t → screen_y t + VGA_HEIGHT < HISTORY_LINES →
  0 ≤ k ≤ cursor_x t →
  tty_cursor_backward beyond t k 0 = Some (set_cursor_x (cursor_x t - k) t).
Proof. by apply tty_cursor_backward_row. Qed.

End Moves.

(** ** Drawing and writing *)

Section Drawing.
Context `{cfg : tty_h}.
Variable beyond : Z → Z.
Hypothesis Hok : tty_h_ok.

(** Loading [n] cells at [a] inside an array gives that slice of it. *)
Lemma load_slice h a n :
  0 ≤ a → 0 ≤ n → a + n ≤ Z.of_nat (length h) →
  Z.of_nat (length h) < 2 ^ 31 →
  load beyond h <$> seqZ a n = take (Z.to_nat n) (drop (Z.to_nat a) h).
Proof.
  intros Ha Hn Hend Hlen. change (2 ^ 31) with 2147483648 in Hlen.
  apply list_eq. intros i. rewrite list_lookup_fmap, lookup_take.
  destruct (decide (i < Z.to_nat n)%nat) as [Hi|Hi].
  - rewrite lookup_seqZ_lt by lia. simpl. unfold load.
    rewrite Z.mod_small by lia. rewrite lookup_drop.
    replace (Z.to_nat (a + Z.of_nat i)) with (Z.to_nat a + i)%nat by lia.
    destruct (lookup_lt_is_Some_2 h (Z.to_nat a + i)) as [v Hv]; [lia|].
    by rewrite Hv.
  - by rewrite lookup_ge_None_2 by (rewrite length_seqZ; lia).
Qed.

Lemma update_tty_viewport t d :
  tty_valid t → vga_wf d →
  update_tty beyond t d =
    Some (mk_devices (viewport t) (cursor_x t, cursor_y t) (beeps d)).
Proof.
  intros [(Hx & Hy & Hs & Hb) Hwf] Hd. destruct Hok. pose proof (pow31 Hok).
  unfold tty_wf, HISTORY_SIZE in Hwf.
  unfold update_tty, vga_wf in *. rewrite decide_True by done.
  unfold sizeof_uint16_t.
  rewrite size_t_id, Z.div_mul by nia.
  unfold memmove. rewrite decide_False by nia. rewrite decide_True by lia.
  ret_step.
  change (take (Z.to_nat 0) (VGA_BUFFER d)) with (@nil Z).
  rewrite app_nil_l, drop_ge, app_nil_r by lia.
  rewrite load_slice by nia. done.
Qed.

Lemma tty_clear_display t d :
  tty_wf t → vga_wf d →
  tty_clear beyond t d =
    Some (mk_tty 0 0 0 (current_color t) blank_history
            (prompted_chars t) (freeze t),
          mk_devices (replicate (Z.to_nat (VGA_WIDTH * VGA_HEIGHT)) EMPTY_CHAR)
            (0, 0) (beeps d)).
Proof.
  intros Hwf Hd. destruct Hok. pose proof (pow31 Hok).
  unfold tty_wf, HISTORY_SIZE in Hwf.
  unfold tty_clear. cbn [history set_cursor_x set_cursor_y set_screen_y].
  unfold tty_clear_portion, HISTORY_SIZE.
  rewrite decide_False by nia. rewrite decide_True by lia.
  rewrite drop_ge by lia. rewrite app_nil_r. ret_step.
  change (take (Z.to_nat 0) (history t)) with (@nil Z).
  rewrite app_nil_l.
  unfold set_history, set_screen_y, set_cursor_y, set_cursor_x.
  cbn [cursor_x cursor_y screen_y current_color prompted_chars freeze].
  fold HISTORY_SIZE. fold blank_history.
  set (t' := mk_tty 0 0 0 _ _ _ _).
  assert (tty_valid t') as Ht'.
  { split.
    - unfold tty_inv, t'. simpl. lia.
    - unfold tty_wf, t', blank_history. simpl.
      rewrite length_replicate. unfold HISTORY_SIZE. nia. }
  rewrite (update_tty_viewport t' d Ht' Hd). ret_step.
  unfold viewport, t', blank_history, HISTORY_SIZE. simpl.
  rewrite Z.mul_0_r. change (Z.to_nat 0) with 0%nat. rewrite drop_0.
  rewrite take_replicate. do 3 f_equal. f_equal. nia.
Qed.

(** The end of [tty_putchar] on a console that needs no normalization. *)
Lemma tty_putchar_end_interior t (update : bool) d :
  tty_inv t → screen_y t + VGA_HEIGHT < HISTORY_LINES →
  (tty ← tty_fix_pos beyond t;
   if update then d' ← update_tty beyond tty d; Some (tty, d')
   else Some (tty, d)) =
  (if update then d' ← update_tty beyond t d; Some (t, d') else Some (t, d)).
Proof.
  intros Hi Hlt. rewrite tty_fix_pos_interior by done. by ret_step.
Qed.

(** X10. On a valid console before the end of its history, whose cursor is
    not in the last cell of the viewport, a byte [c] that is no backspace,
    tab, newline or carriage return is stored as the cell [glyph_cell c], that
    is [(uint16_t) c | (current_color << 8)], in the cell of the history
    under the cursor, and the cursor moves one column forward, to column 0 of
    the next row from the last column; nothing else changes in the console;
    the display is redrawn from the result when [update] is set and left
    alone otherwise. *)
Theorem putchar_glyph c t update d :
  c ≠ 8 → c ≠ 9 → c ≠ 10 → c ≠ 13 →
  tty_valid t → screen_y t + VGA_HEIGHT < HISTORY_LINES →
  cursor_y t + Z.quot (cursor_x t + 1) VGA_WIDTH < VGA_HEIGHT →
  let t' :=
    set_cursor_y (cursor_y t + Z.quot (cursor_x t + 1) VGA_WIDTH)
      (set_cursor_x (Z.rem (cursor_x t + 1) VGA_WIDTH)
         (set_history
            (<[Z.to_nat (HISTORY_POS (screen_y t) (cursor_x t) (cursor_y t))
               := glyph_cell c t]> (history t)) t)) in
  tty_putchar beyond c t update d =
    if update then d' ← update_tty beyond t' d; Some (t', d')
    else Some (t', d).
Proof.
  intros H8 H9 H10 H13 Ht Hlt Hrow t'.
  pose proof (HISTORY_POS_range Hok t Ht) as Hp.
  destruct Ht as [Hi Hwf]. pose proof Hi as (Hx & Hy & Hs & Hb).
  destruct Hok. pose proof (half_pos (cfg:=cfg) ltac:(lia)) as Hh.
  assert (0 < VGA_WIDTH) as Hw by lia.
  assert (0 ≤ cursor_x t + 1) as Hp1 by lia.
  pose proof (Z.quot_pos _ _ Hp1 Hw) as Hq.
  pose proof (Z.rem_bound_pos _ _ Hp1 Hw) as Hr.
  unfold tty_putchar. rewrite !decide_False by done.
  unfold store. rewrite decide_True by done. ret_step.
  set (h := <[_ := _]> (history t)).
  rewrite (forward_wrap beyond Hok (set_history h t) 1); [|done|done|lia|..].
  - ret_step. ret_step.
    match goal with
    | |- context [tty_fix_pos beyond ?X] => assert (X = t') as -> by reflexivity
    end.
    apply tty_putchar_end_interior; [|done].
    unfold tty_inv, t'. simpl. lia.
  - simpl. lia.
  - simpl. lia.
Qed.

(** X12. On a valid console before the end of its history, a carriage
    return puts the cursor at column 0 and changes
    nothing else, and a backspace sends one bell to the timer and leaves the
    console as it is. *)
Theorem putchar_return_backspace t update d :
  tty_valid t → screen_y t + VGA_HEIGHT < HISTORY_LINES →
  tty_putchar beyond 13 t update d =
    (if update then d' ← update_tty beyond (set_cursor_x 0 t) d;
                    Some (set_cursor_x 0 t, d')
     else Some (set_cursor_x 0 t, d)) ∧
  tty_putchar beyond 8 t update d =
    (if update then d' ← update_tty beyond t (beep_during d); Some (t, d')
     else Some (t, beep_during d)).
Proof.
  intros [Hi Hwf] Hlt. pose proof Hi as (Hx & Hy & Hs & Hb). destruct Hok.
  split.
  - unfold tty_putchar. rewrite !decide_False by done.
    rewrite decide_True by done. ret_step.
    apply tty_putchar_end_interior; [|done]. unfold tty_inv. simpl. lia.
  - unfold tty_putchar. rewrite decide_True by done. ret_step.
    by apply tty_putchar_end_interior.
Qed.

(** X13. On a valid console before the end of its history, a tab moves the
    cursor forward to the next multiple of [TAB_SIZE], which is at least one
    and at most [TAB_SIZE] columns away, when that column is in the row, and
    changes nothing else in the console; the display is redrawn from the
    result when [update] is set and left alone otherwise. *)
Theorem putchar_tab t update d :
  tty_valid t → screen_y t + VGA_HEIGHT < HISTORY_LINES →
  cursor_x t + GET_TAB_SIZE (cursor_x t) < VGA_WIDTH →
  let stop := cursor_x t + GET_TAB_SIZE (cursor_x t) in
  tty_putchar beyond 9 t update d =
    (if update then d' ← update_tty beyond (set_cursor_x stop t) d;
                    Some (set_cursor_x stop t, d')
     else Some (set_cursor_x stop t, d)) ∧
  Z.rem stop TAB_SIZE = 0 ∧ cursor_x t < stop ≤ cursor_x t + TAB_SIZE.
Proof.
  intros [Hi Hwf] Hlt Hstop stop. pose proof Hi as (Hx & Hy & Hs & Hb).
  pose proof (GET_TAB_SIZE_range Hok (cursor_x t) ltac:(lia)) as Hr.
  destruct Hok. pose proof (pow31 Hok).
  pose proof (half_pos (cfg:=cfg) ltac:(lia)) as Hh.
  split_and!; [| |unfold stop; lia..].
  - unfold tty_putchar. rewrite decide_False by done.
    rewrite decide_True by done. rewrite size_t_id by lia.
    rewrite (forward_wrap beyond Hok t (GET_TAB_SIZE (cursor_x t)));
      [|done|done|lia|lia|rewrite Z.quot_small by lia; lia].
    ret_step. ret_step. fold stop.
    rewrite Z.rem_small, Z.quot_small, Z.add_0_r by (unfold stop; lia).
    replace (set_cursor_y (cursor_y t) (set_cursor_x stop t))
      with (set_cursor_x stop t) by (by destruct t).
    apply tty_putchar_end_interior; [|done].
    unfold tty_inv, stop. simpl. lia.
  - unfold stop, GET_TAB_SIZE.
    assert (TAB_SIZE ≠ 0) as Hne by lia.
    pose proof (Z.quot_rem' (cursor_x t) TAB_SIZE) as Hqr.
    replace (cursor_x t + (TAB_SIZE - Z.rem (cursor_x t) TAB_SIZE))
      with ((Z.quot (cursor_x t) TAB_SIZE + 1) * TAB_SIZE) by lia.
    by apply Z.rem_mul.
Qed.

(** X8. [update_tty] on a valid console copies the [VGA_WIDTH * VGA_HEIGHT]
    cells of the history that start at row [screen_y] to the display, in
    order, moves the hardware cursor to the cursor of the console, and rings
    no bell. *)
Theorem update_tty_draws_viewport t d :
  tty_valid t → vga_wf d →
  update_tty beyond t d =
    Some (mk_devices (viewport t) (cursor_x t, cursor_y t) (beeps d)).
Proof. by apply update_tty_viewport. Qed.

(** X9. After [tty_clear] every cell of the display is the empty cell and
    the hardware cursor is at the origin. *)
Theorem clear_draws_blank t d :
  tty_wf t → vga_wf d →
  tty_clear beyond t d =
    Some (mk_tty 0 0 0 (current_color t) blank_history
            (prompted_chars t) (freeze t),
          mk_devices (replicate (Z.to_nat (VGA_WIDTH * VGA_HEIGHT)) EMPTY_CHAR)
            (0, 0) (beeps d)).
Proof. by apply tty_clear_display. Qed.

(** X14. Writing any byte, with or without redraw, on a valid console with a
    display of the size of the viewport returns, and returns a valid
    console with the same color, count of prompted characters and freeze
    flag. *)
Theorem putchar_keeps_valid c t update d :
  tty_valid t → vga_wf d →
  ∃ t' d', tty_putchar beyond c t update d = Some (t', d') ∧
           tty_valid t' ∧ vga_wf d' ∧
           current_color t' = current_color t ∧
           prompted_chars t' = prompted_chars t ∧ freeze t' = freeze t.
Proof.
  intros Ht Hd.
  destruct (tty_putchar_valid beyond (λ _ _ _ _ _, None) Hok c t update d
              Ht Hd) as (t' & d' & He & Ht' & Hd' & (? & ? & ?)).
  exists t', d'. by repeat split; try apply Ht'.
Qed.

End Drawing.

(** ** Attributes and cells *)

Section Cells.

(** X15. [tty_set_bgcolor] keeps the four low bits of the attribute (the
    foreground), puts the four low bits of the color in bits 4 to 7, and
    leaves nothing above bit 7. *)
Theorem set_bgcolor_bits t color :
  current_color (tty_set_bgcolor t color)
  = Z.lor (Z.land (current_color t) 0xf) (Z.shiftl (Z.land color 0xf) 4).
Proof.
  unfold tty_set_bgcolor. simpl. unfold vgacolor_t, int_not.
  change (- (Z.shiftl 255 4 mod 2 ^ 8) - 1) with (-241).
  apply Z.bits_inj'. intros n Hn.
  change 15 with (Z.ones 4).
  destruct (decide (n < 4)) as [Hlt|Hge4].
  - rewrite Z.mod_pow2_bits_low by lia. rewrite !Z.lor_spec.
    rewrite Z.mod_pow2_bits_low by lia.
    rewrite !Z.shiftl_spec_low, !orb_false_r by lia.
    rewrite !Z.land_spec, Z.ones_spec_low, andb_true_r by lia.
    assert (Z.testbit (-241) n = true) as ->; [|by rewrite andb_true_r].
    assert (n = 0 ∨ n = 1 ∨ n = 2 ∨ n = 3) as [->|[->|[->| ->]]] by lia;
      reflexivity.
  - destruct (decide (n < 8)) as [Hlt8|Hge8].
    + rewrite Z.mod_pow2_bits_low by lia. rewrite !Z.lor_spec.
      rewrite Z.mod_pow2_bits_low by lia.
      rewrite !Z.shiftl_spec by lia.
      rewrite !Z.land_spec, Z.ones_spec_high by lia.
      rewrite (Z.ones_spec_low 4 (n - 4)) by lia.
      assert (Z.testbit (-241) n = false) as ->.
      { assert (n = 4 ∨ n = 5 ∨ n = 6 ∨ n = 7) as [->|[->|[->| ->]]] by lia;
          reflexivity. }
      by rewrite !andb_false_r, andb_true_r.
    + rewrite Z.mod_pow2_bits_high by lia. rewrite Z.lor_spec.
      rewrite Z.shiftl_spec by lia.
      rewrite !Z.land_spec, !Z.ones_spec_high by lia.
      by rewrite !andb_false_r.
Qed.

(** X11. The cell written for an ASCII byte holds the byte in its low 8
    bits and the current color in its high 8 bits. *)
Theorem glyph_cell_bytes c t :
  0 ≤ c < 128 → 0 ≤ current_color t < 256 →
  glyph_cell c t = c + 256 * current_color t.
Proof.
  intros Hc Hcol. unfold glyph_cell, uint16_t.
  rewrite (Z.mod_small c), (Z.mod_small (current_color t)) by lia.
  rewrite Z.shiftl_mul_pow2 by lia. change (2 ^ 8) with 256.
  assert (Z.land c (current_color t * 256) = 0) as Hland.
  { apply Z.bits_inj'. intros n Hn. rewrite Z.land_spec, Z.bits_0.
    destruct (decide (n < 8)).
    - replace (current_color t * 256) with (Z.shiftl (current_color t) 8)
        by (rewrite Z.shiftl_mul_pow2 by lia; reflexivity).
      by rewrite Z.shiftl_spec_low, andb_false_r by lia.
    - replace c with (c mod 2 ^ 8) by (apply Z.mod_small; lia).
      by rewrite Z.mod_pow2_bits_high by lia. }
  rewrite <- Z.lxor_lor by done.
  rewrite <- Z.add_nocarry_lxor by done.
  rewrite Z.mod_small by lia. lia.
Qed.

(** X16. [tty_set_fgcolor] with a color of 8 bits leaves that color as the
    whole attribute. *)
Theorem set_fgcolor_replaces_attribute t color :
  0 ≤ color < 256 → current_color (tty_set_fgcolor t color) = color.
Proof. apply tty_set_fgcolor_color. Qed.

End Cells.

(** ** The keyboard hooks *)

Section HookProps.
Context `{cfg : tty_h} `{keys : keyboard_h}.
Variable beyond : Z → Z.
Hypothesis Hok : tty_h_ok.

(** Storing the current console back touches no other console. *)
Lemma set_current_frame tty d k :
  current_tty (set_current tty d k) = current_tty k ∧
  length (ttys (set_current tty d k)) = length (ttys k) ∧
  ∀ j, j ≠ current_tty k → ttys (set_current tty d k) !! j = ttys k !! j.
Proof.
  unfold set_current. simpl. split; [done|]. split.
  - apply length_insert.
  - intros j Hj. by apply list_lookup_insert_ne.
Qed.



(** After [tty_erase] with the count of prompted characters, none is
    left. *)
Lemma erase_all_prompted t d t' d' :
  0 ≤ prompted_chars t →
  tty_erase beyond t (prompted_chars t) d = Some (t', d') →
  prompted_chars t' = 0.
Proof.
  intros Hp. unfold tty_erase. case_decide as H0; [by intros [= <- _]|].
  rewrite decide_False by lia.
  intros H. apply bind_Some in H as (t1 & Hback & H).
  rewrite tty_cursor_backward_eq in Hback.
  apply tty_fix_pos_frame in Hback as [(_ & Hp1 & _) _]. simpl in Hp1.
  apply bind_Some in H as (h & _ & H). simpl in H.
  apply bind_Some in H as (d1 & _ & H). injection H as <- _. simpl.
  rewrite Hp1, Z.sub_diag. reflexivity.
Qed.

(** When [tty_input_hook] has a result, only the current console can have
    changed. *)
Lemma input_hook_result_frame kbd code k k' :
  tty_input_hook beyond kbd code k = Some k' →
  current_tty k' = current_tty k ∧ length (ttys k') = length (ttys k) ∧
  ∀ j, j ≠ current_tty k → ttys k' !! j = ttys k !! j.
Proof.
  unfold tty_input_hook. intros H.
  destruct (keyboard_is_ctrl_enabled kbd).
  - repeat case_decide.
    + apply bind_Some in H as (t & _ & H).
      apply bind_Some in H as (d & _ & H). injection H as <-.
      apply set_current_frame.
    + apply bind_Some in H as (t & _ & H).
      apply bind_Some in H as ([t1 d] & _ & H). injection H as <-.
      apply set_current_frame.
    + apply bind_Some in H as (t & _ & H). injection H as <-.
      apply set_current_frame.
    + by injection H as <-.
  - apply bind_Some in H as (t & _ & H).
    apply bind_Some in H as ([t1 d] & _ & H). injection H as <-.
    apply set_current_frame.
Qed.

(** On a valid console [tty_fix_pos] returns, and leaves the cursor and the
    viewport where they are. *)
Lemma tty_fix_pos_position t :
  tty_valid t →
  ∃ t', tty_fix_pos beyond t = Some t' ∧ tty_valid t' ∧ same_attrs t t' ∧
        cursor_x t' = cursor_x t ∧ cursor_y t' = cursor_y t ∧
        screen_y t' = screen_y t.
Proof.
  intros Ht.
  destruct (tty_fix_pos_valid beyond Hok t Ht) as (t' & He & Ht' & Ha).
  exists t'. split; [exact He|]. split; [exact Ht'|]. split; [exact Ha|].
  destruct Ht as [Hi Hwf]. pose proof Hi as (Hx & Hy & Hs & Hb).
  destruct (decide (screen_y t + VGA_HEIGHT < HISTORY_LINES)) as [Hlt|Hge].
  - rewrite (tty_fix_pos_interior beyond t Hi Hlt) in He.
    injection He as <-. done.
  - rewrite (tty_fix_pos_boundary beyond Hok t Hi Hwf ltac:(lia)) in He.
    injection He as <-. done.
Qed.

(** Prompted characters that all lie before the cursor in its row can be
    erased, wherever the viewport is: no store leaves the history. *)
Lemma erase_in_row t d :
  tty_valid t → vga_wf d → 0 ≤ prompted_chars t ≤ cursor_x t →
  is_Some (tty_erase beyond t (prompted_chars t) d).
Proof.
  intros [Hi Hwf] Hd Hk. pose proof Hi as (Hx & Hy & Hs & Hb).
  destruct (decide (prompted_chars t = 0)) as [H0|H0].
  - unfold tty_erase. rewrite decide_True by done. by eexists.
  - pose proof Hok as [].
    pose proof (half_pos (cfg:=cfg) ltac:(lia)) as Hh.
    set (k := prompted_chars t) in *.
    assert (tty_valid (set_cursor_x (cursor_x t - k) t)) as Hv.
    { split; [|exact Hwf]. unfold tty_inv. simpl. lia. }
    destruct (tty_fix_pos_position _ Hv)
      as (t1 & Hfix & [Hi1 Hwf1] & _ & Hx1 & Hy1 & Hs1).
    simpl in Hx1, Hy1, Hs1.
    assert (tty_cursor_backward beyond t k 0 = Some t1) as Hback.
    { rewrite tty_cursor_backward_eq.
      rewrite (vgapos_t_id (cursor_x t - k)), (vgapos_t_id (cursor_y t - 0))
        by lia.
      rewrite Z.sub_0_r.
      replace (set_cursor_y (cursor_y t) (set_cursor_x (cursor_x t - k) t))
        with (set_cursor_x (cursor_x t - k) t) by (by destruct t).
      exact Hfix. }
    destruct (tty_erase_some beyond Hok t k d k t1 eq_refl ltac:(lia)
                ltac:(lia) Hwf Hd Hback) as (d' & He & _).
    + rewrite Hx1, Hy1, Hs1. unfold HISTORY_POS, HISTORY_SIZE. nia.
    + rewrite He. by eexists.
Qed.

(** On a valid current console, with a display of the size of the viewport,
    every store of [tty_input_hook] is inside its array, for Ctrl-W as long
    as the prompted characters all lie before the cursor in its row. *)
Lemma input_hook_returns kbd code k tty :
  ttys k !! current_tty k = Some tty → tty_valid tty → vga_wf (hw k) →
  (keyboard_is_ctrl_enabled kbd = true → code = KEY_W →
   0 ≤ prompted_chars tty ≤ cursor_x tty) →
  is_Some (tty_input_hook beyond kbd code k).
Proof.
  intros Hcur Ht Hd Hw. unfold tty_input_hook. rewrite Hcur.
  destruct (keyboard_is_ctrl_enabled kbd).
  - repeat case_decide.
    + ret_step.
      destruct (update_tty_valid beyond Hok (set_freeze false tty) (hw k))
        as (d' & -> & _); [by destruct Ht|done|].
      ret_step. by eexists.
    + ret_step.
      destruct (erase_in_row tty (hw k) Ht Hd (Hw eq_refl ltac:(done)))
        as [[t1 d1] ->].
      ret_step. by eexists.
    + ret_step. by eexists.
    + by eexists.
  - ret_step.
    destruct (tty_putchar_valid beyond (λ _ _ _ _ _, None) Hok
                (keyboard_get_char kbd code (keyboard_is_shift_enabled kbd))
                tty (negb (freeze tty)) (hw k) Ht Hd)
      as (t1 & d1 & -> & _).
    ret_step. by eexists.
Qed.

(** X19. On a valid current console, with a display of the size of the
    viewport, [tty_input_hook] returns for every key and state of the
    keyboard (for Ctrl-W, when the prompted characters all lie before the
    cursor in its row), no store leaves an array, and after it the current
    console is still the current one, the registry has as many consoles, and
    every other console is as before. *)
Theorem input_hook_frame kbd code k tty :
  ttys k !! current_tty k = Some tty → tty_valid tty → vga_wf (hw k) →
  (keyboard_is_ctrl_enabled kbd = true → code = KEY_W →
   0 ≤ prompted_chars tty ≤ cursor_x tty) →
  ∃ k', tty_input_hook beyond kbd code k = Some k' ∧
        current_tty k' = current_tty k ∧
        length (ttys k') = length (ttys k) ∧
        ∀ j, j ≠ current_tty k → ttys k' !! j = ttys k !! j.
Proof.
  intros Hcur Ht Hd Hw.
  destruct (input_hook_returns kbd code k tty Hcur Ht Hd Hw) as [k' He].
  exists k'. split; [exact He|]. exact (input_hook_result_frame _ _ _ _ He).
Qed.

(** X18. When [tty_erase_hook] returns, the current console is still the
    current one, the registry has as many consoles, and every other console
    is as before. *)
Theorem erase_hook_frame k k' :
  tty_erase_hook beyond k = Some k' →
  current_tty k' = current_tty k ∧ length (ttys k') = length (ttys k) ∧
  ∀ j, j ≠ current_tty k → ttys k' !! j = ttys k !! j.
Proof.
  unfold tty_erase_hook. intros H.
  apply bind_Some in H as (t & _ & H).
  apply bind_Some in H as ([t1 d] & _ & H). injection H as <-.
  apply (set_current_frame t1 d k).
Qed.


(** X21. Without the control key, a key on a valid current console returns
    a valid console in which the count of prompted characters is 0 after a
    newline and one more (as a [size_t]) after any other character; the
    color and the freeze flag are kept. *)
Theorem input_hook_plain kbd code k tty :
  keyboard_is_ctrl_enabled kbd = false →
  ttys k !! current_tty k = Some tty → tty_valid tty → vga_wf (hw k) →
  let c := keyboard_get_char kbd code (keyboard_is_shift_enabled kbd) in
  ∃ k' tty',
    tty_input_hook beyond kbd code k = Some k' ∧
    ttys k' !! current_tty k = Some tty' ∧
    tty_valid tty' ∧ vga_wf (hw k') ∧
    prompted_chars tty' =
      (if decide (c = 10) then 0 else size_t (prompted_chars tty + 1)) ∧
    current_color tty' = current_color tty ∧ freeze tty' = freeze tty.
Proof.
  intros Hctrl Hcur Ht Hd c. unfold tty_input_hook. rewrite Hctrl, Hcur.
  ret_step. fold c.
  destruct (tty_putchar_valid beyond (λ _ _ _ _ _, None) Hok c tty
              (negb (freeze tty)) (hw k) Ht Hd)
    as (t1 & d1 & -> & [Hi1 Hwf1] & Hd1 & (Hc1 & Hp1 & Hf1)).
  ret_step.
  eexists _, _. split; [reflexivity|].
  assert (current_tty k < length (ttys k))%nat as Hlt
    by (by apply lookup_lt_Some in Hcur).
  unfold set_current. cbn [ttys hw].
  split; [by apply list_lookup_insert_eq|].
  case_decide.
  - split; [split; [exact Hi1|exact Hwf1]|]. split; [exact Hd1|].
    split; [reflexivity|]. split; [exact Hc1|exact Hf1].
  - split; [split; [exact Hi1|exact Hwf1]|]. split; [exact Hd1|].
    split; [simpl; by rewrite Hp1|]. split; [exact Hc1|exact Hf1].
Qed.

(** X22. Ctrl-Q clears the freeze flag of the current console and redraws:
    the display shows the viewport of the console and its cursor. *)
Theorem input_hook_unfreeze kbd k tty :
  keyboard_is_ctrl_enabled kbd = true →
  ttys k !! current_tty k = Some tty → tty_valid tty → vga_wf (hw k) →
  tty_input_hook beyond kbd KEY_Q k =
    Some (set_current (set_freeze false tty)
            (mk_devices (viewport tty) (cursor_x tty, cursor_y tty)
               (beeps (hw k))) k).
Proof.
  intros Hctrl Hcur Ht Hd. unfold tty_input_hook.
  rewrite Hctrl, decide_True, Hcur by done. ret_step.
  rewrite (update_tty_viewport beyond Hok (set_freeze false tty) (hw k));
    [|by destruct Ht|done].
  by ret_step.
Qed.

(** X23. On a valid current console before the end of its history, whose
    prompted characters, at least one, all lie before the cursor in its row,
    Ctrl-W erases them all: the cursor moves back by their count, their cells
    are made empty, the count is 0, and nothing else changes in the
    console. *)
Theorem input_hook_erase_line kbd k tty :
  keyboard_is_ctrl_enabled kbd = true → KEY_W ≠ KEY_Q →
  ttys k !! current_tty k = Some tty → tty_valid tty → vga_wf (hw k) →
  screen_y tty + VGA_HEIGHT < HISTORY_LINES →
  0 < prompted_chars tty ≤ cursor_x tty →
  ∃ d',
    tty_input_hook beyond kbd KEY_W k =
      Some (set_current
              (set_prompted_chars 0
                 (set_history
                    (blanked (history tty)
                       (HISTORY_POS (screen_y tty)
                          (cursor_x tty - prompted_chars tty) (cursor_y tty))
                       (prompted_chars tty))
                    (set_cursor_x (cursor_x tty - prompted_chars tty) tty)))
              d' k).
Proof.
  intros Hctrl Hne Hcur [Hi Hwf] Hd Hlt Hk. unfold tty_input_hook.
  rewrite Hctrl, decide_False, decide_True, Hcur by done. ret_step.
  pose proof (tty_cursor_backward_row beyond Hok tty (prompted_chars tty) Hi
                Hlt ltac:(lia)) as Hback.
  destruct (tty_erase_some beyond Hok tty (prompted_chars tty) (hw k)
              (prompted_chars tty) _ eq_refl ltac:(lia) ltac:(lia) Hwf Hd
              Hback) as (d' & -> & _).
  - destruct Hok, Hi as (? & ? & ? & ?).
    unfold HISTORY_POS, HISTORY_SIZE. simpl. nia.
  - ret_step. by exists d'.
Qed.


End HookProps.

(** ** Initialization and bulk output *)

Section Registry.
Context `{cfg : tty_h} `{keys : keyboard_h}.
Variable beyond : Z → Z.
Variable ansi_handle :
  tty_t → devices → list Z → nat → nat → option (tty_t * devices * nat).
Hypothesis Hok : tty_h_ok.

(** X24. [tty_init] leaves [TTYS_COUNT] consoles that satisfy the
    invariants, all with the default color, no prompted character and not
    frozen; console 0 is the current one, its history is empty cells and the
    display shows it, with the cursor at the origin; the other consoles hold
    zeroed cells. *)
Theorem tty_init_ok k :
  (0 < TTYS_COUNT)%nat → vga_wf (hw k) →
  let active :=
    mk_tty 0 0 0 (vgacolor_t VGA_DEFAULT_COLOR) blank_history 0 false in
  let idle := set_current_color (vgacolor_t VGA_DEFAULT_COLOR) zeroed_tty in
  tty_init beyond k =
    Some (mk_kernel (active :: replicate (TTYS_COUNT - 1) idle) 0
            (mk_devices
               (replicate (Z.to_nat (VGA_WIDTH * VGA_HEIGHT)) EMPTY_CHAR)
               (0, 0) (beeps (hw k)))) ∧
  tty_valid active ∧ tty_valid idle.
Proof.
  intros Hn Hd active idle. destruct Hok.
  assert (0 ≤ HISTORY_SIZE) as Hsize by (unfold HISTORY_SIZE; nia).
  assert (tty_wf idle) as Hwfi.
  { unfold tty_wf, idle, zeroed_tty. simpl. rewrite length_replicate. lia. }
  assert (tty_inv idle) as Hii by (unfold tty_inv, idle; simpl; lia).
  split_and!.
  - unfold tty_init, switch_tty, vga_enable_cursor.
    cbn [ttys current_tty hw]. rewrite fmap_replicate. fold idle.
    rewrite lookup_replicate_2 by done. ret_step.
    rewrite (tty_clear_display beyond Hok idle (hw k) Hwfi Hd). ret_step.
    unfold set_current. cbn [ttys current_tty hw]. do 2 f_equal.
    destruct TTYS_COUNT as [|n]; [lia|]. simpl. by rewrite Nat.sub_0_r.
  - split.
    + unfold tty_inv, active. simpl. lia.
    + unfold tty_wf, active, blank_history. simpl.
      rewrite length_replicate. lia.
  - by split.
Qed.

Lemma tty_write_loop_bytes fuel buffer count i t d :
  Forall (λ c, c ≠ ANSI_ESCAPE) buffer →
  (count ≤ length buffer)%nat → (count ≤ fuel + i)%nat →
  tty_write_loop beyond ansi_handle fuel buffer count i t d =
  write_bytes beyond (drop i (take count buffer)) t d.
Proof.
  intros Hesc Hlen. revert i t d.
  induction fuel as [|fuel IH]; intros i t d Hfuel.
  - simpl. rewrite decide_False by lia.
    by rewrite drop_ge by (rewrite length_take; lia).
  - simpl. case_decide as Hi.
    + destruct (lookup_lt_is_Some_2 buffer i) as [c Hc]; [lia|].
      rewrite Hc. ret_step.
      pose proof (proj1 (Forall_lookup _ _) Hesc i c Hc) as Hne.
      simpl in Hne. rewrite decide_True by done.
      assert (take count buffer !! i = Some c) as Hc'
        by (by rewrite lookup_take, decide_True by lia).
      rewrite (drop_S _ _ _ Hc'). cbn [write_bytes].
      destruct (tty_putchar beyond c t false d) as [[t1 d1]|];
        [|reflexivity].
      ret_step. ret_step. ret_step.
      destruct (update_tty beyond t1 d1) as [d2|]; [|reflexivity].
      ret_step. ret_step. apply IH. lia.
    + by rewrite drop_ge by (rewrite length_take; lia).
Qed.

(** X25. On a buffer with no escape byte, [tty_write] with a count within
    the buffer is the writing of its first [count] bytes in order, each
    without redraw and followed by one: the escape handler plays no part. *)
Theorem tty_write_bytes buffer count t d :
  Forall (λ c, c ≠ ANSI_ESCAPE) buffer → (count ≤ length buffer)%nat →
  tty_write beyond ansi_handle (Some buffer) count (Some t) d =
  (λ r : tty_t * devices, (Some r.1, r.2))
    <$> write_bytes beyond (take count buffer) t d.
Proof.
  intros Hesc Hlen. unfold tty_write. case_decide as Hc.
  - subst count. reflexivity.
  - rewrite (tty_write_loop_bytes count buffer count) by (done || lia).
    rewrite drop_0.
    by destruct (write_bytes beyond (take count buffer) t d) as [[t1 d1]|].
Qed.

End Registry.

(** ** The further properties on the concrete console *)

Section MoreEvaluations.
#[local] Existing Instance vga_text_mode.
#[local] Existing Instance pc_keyboard.

(** Closed comparisons of the constants of the geometry and of the fields of
    a concrete console. *)
Ltac arith :=
  lazy; repeat split;
  first [reflexivity | discriminate | (intros ?; discriminate)].

Lemma frozen_tty_valid : tty_valid frozen_tty.
Proof. split; [arith|vm_compute; reflexivity]. Qed.

Lemma frozen_prompt_wf : tty_wf frozen_prompt.
Proof. vm_compute. reflexivity. Qed.

Lemma fix_pos_keeps_attributes_witness :
  current_color tty_evicted = current_color tty_at_end ∧
  prompted_chars tty_evicted = prompted_chars tty_at_end ∧
  freeze tty_evicted = freeze tty_at_end ∧
  length (history tty_evicted) = length (history tty_at_end).
Proof.
  apply (fix_pos_keeps_attributes zero_memory tty_at_end tty_evicted).
  apply (tty_fix_pos_boundary zero_memory vga_text_mode_ok tty_at_end).
  - arith.
  - exact numbered_history_length.
  - reflexivity.
Defined.

Lemma fix_pos_settled_witness :
  tty_fix_pos zero_memory (tty_at 5 3 0 numbered_history)
  = Some (tty_at 5 3 0 numbered_history).
Proof.
  apply (fix_pos_settled zero_memory (tty_at 5 3 0 numbered_history)); arith.
Defined.

Lemma cursor_forward_wraps_witness :
  tty_cursor_forward zero_memory (tty_at 75 3 0 numbered_history) 10 0
  = Some (tty_at 5 4 0 numbered_history).
Proof.
  apply (cursor_forward_wraps zero_memory vga_text_mode_ok
           (tty_at 75 3 0 numbered_history) 10); arith.
Defined.

Lemma cursor_backward_in_row_witness :
  tty_cursor_backward zero_memory (tty_at 5 3 0 numbered_history) 2 0
  = Some (tty_at 3 3 0 numbered_history).
Proof.
  apply (cursor_backward_in_row zero_memory vga_text_mode_ok
           (tty_at 5 3 0 numbered_history) 2); arith.
Defined.

Lemma backward_previous_row_witness :
  tty_cursor_backward zero_memory (tty_at 5 3 0 numbered_history) 7 0
  = Some (tty_at 78 2 0 numbered_history).
Proof.
  apply (backward_previous_row zero_memory vga_text_mode_ok
           (tty_at 5 3 0 numbered_history) 7); arith.
Defined.

Lemma newline_next_row_witness :
  tty_newline zero_memory (tty_at 5 3 0 numbered_history)
  = Some (tty_at 0 4 0 numbered_history).
Proof.
  apply (newline_next_row zero_memory vga_text_mode_ok
           (tty_at 5 3 0 numbered_history)); arith.
Defined.

Lemma newline_scroll_witness :
  tty_newline zero_memory (tty_at 5 24 10 numbered_history)
  = Some (tty_at 0 24 11 numbered_history).
Proof.
  apply (newline_scroll zero_memory vga_text_mode_ok
           (tty_at 5 24 10 numbered_history)); arith.
Defined.

Lemma update_tty_draws_viewport_witness :
  update_tty zero_memory (tty_at 5 3 10 numbered_history) dark_display
  = Some (mk_devices (viewport (tty_at 5 3 10 numbered_history)) (5, 3) 0).
Proof.
  apply (update_tty_draws_viewport zero_memory vga_text_mode_ok
           (tty_at 5 3 10 numbered_history) dark_display).
  - apply tty_at_valid; lia.
  - exact dark_display_wf.
Defined.

Lemma clear_draws_blank_witness :
  tty_clear zero_memory (tty_at 5 3 10 numbered_history) dark_display
  = Some (mk_tty 0 0 0 7 blank_history 0 false,
          mk_devices (replicate (Z.to_nat 2000) EMPTY_CHAR) (0, 0) 0).
Proof.
  apply (clear_draws_blank zero_memory vga_text_mode_ok
           (tty_at 5 3 10 numbered_history) dark_display).
  - exact numbered_history_length.
  - exact dark_display_wf.
Defined.

Lemma putchar_glyph_witness :
  tty_putchar zero_memory 65 (tty_at 5 3 0 numbered_history) false
    dark_display
  = Some (set_history (<[Z.to_nat 245 := 0x0741]> numbered_history)
            (tty_at 6 3 0 numbered_history), dark_display).
Proof.
  apply (putchar_glyph zero_memory vga_text_mode_ok 65
           (tty_at 5 3 0 numbered_history) false dark_display);
    first [discriminate | (apply tty_at_valid; lia) | arith].
Defined.

Lemma glyph_cell_bytes_witness :
  glyph_cell 65 white_on_blue = 65 + 256 * current_color white_on_blue.
Proof. apply (glyph_cell_bytes 65 white_on_blue); arith. Defined.

Lemma putchar_return_backspace_witness :
  tty_putchar zero_memory 13 (tty_at 5 3 0 numbered_history) false
    dark_display
  = Some (tty_at 0 3 0 numbered_history, dark_display) ∧
  tty_putchar zero_memory 8 (tty_at 5 3 0 numbered_history) false
    dark_display
  = Some (tty_at 5 3 0 numbered_history, beep_during dark_display).
Proof.
  apply (putchar_return_backspace zero_memory vga_text_mode_ok
           (tty_at 5 3 0 numbered_history) false dark_display).
  - apply tty_at_valid; lia.
  - arith.
Defined.

Lemma putchar_tab_witness :
  tty_putchar zero_memory 9 (tty_at 5 3 0 numbered_history) false
    dark_display
  = Some (tty_at 8 3 0 numbered_history, dark_display) ∧
  Z.rem 8 TAB_SIZE = 0 ∧ 5 < 8 ≤ 5 + TAB_SIZE.
Proof.
  apply (putchar_tab zero_memory vga_text_mode_ok
           (tty_at 5 3 0 numbered_history) false dark_display).
  - apply tty_at_valid; lia.
  - arith.
  - arith.
Defined.

Lemma putchar_keeps_valid_witness :
  ∃ t' d', tty_putchar zero_memory 65 tty_at_end true dark_display
             = Some (t', d') ∧
           tty_valid t' ∧ vga_wf d' ∧
           current_color t' = current_color tty_at_end ∧
           prompted_chars t' = prompted_chars tty_at_end ∧
           freeze t' = freeze tty_at_end.
Proof.
  apply (putchar_keeps_valid zero_memory vga_text_mode_ok 65 tty_at_end true
           dark_display).
  - apply tty_at_valid; lia.
  - exact dark_display_wf.
Defined.

Lemma set_fgcolor_replaces_attribute_witness :
  current_color (tty_set_fgcolor white_on_blue 2) = 2.
Proof. apply (set_fgcolor_replaces_attribute white_on_blue 2). lia. Defined.


Lemma erase_hook_frame_witness :
  ∃ k', tty_erase_hook zero_memory (two_consoles frozen_prompt) = Some k' ∧
        current_tty k' = current_tty (two_consoles frozen_prompt) ∧
        length (ttys k') = length (ttys (two_consoles frozen_prompt)) ∧
        ∀ j, j ≠ current_tty (two_consoles frozen_prompt) →
             ttys k' !! j = ttys (two_consoles frozen_prompt) !! j.
Proof.
  eexists. split; [vm_compute; reflexivity|].
  apply (erase_hook_frame zero_memory (two_consoles frozen_prompt)).
  vm_compute. reflexivity.
Defined.

Lemma input_hook_frame_witness :
  ∃ k', tty_input_hook zero_memory ctrl_held KEY_W (two_consoles prompt_at_end)
          = Some k' ∧
        current_tty k' = current_tty (two_consoles prompt_at_end) ∧
        length (ttys k') = length (ttys (two_consoles prompt_at_end)) ∧
        ∀ j, j ≠ current_tty (two_consoles prompt_at_end) →
             ttys k' !! j = ttys (two_consoles prompt_at_end) !! j.
Proof.
  apply (input_hook_frame zero_memory vga_text_mode_ok ctrl_held KEY_W
           (two_consoles prompt_at_end) prompt_at_end).
  - reflexivity.
  - apply (tty_at_valid 5 3 175); lia.
  - exact dark_display_wf.
  - intros _ _. arith.
Defined.


Lemma input_hook_plain_witness :
  ∃ k' tty',
    tty_input_hook zero_memory typing 65 (two_consoles fresh_tty) = Some k' ∧
    ttys k' !! current_tty (two_consoles fresh_tty) = Some tty' ∧
    tty_valid tty' ∧ vga_wf (hw k') ∧
    prompted_chars tty' =
      (if decide (65 = 10) then 0 else size_t (prompted_chars fresh_tty + 1)) ∧
    current_color tty' = current_color fresh_tty ∧
    freeze tty' = freeze fresh_tty.
Proof.
  apply (input_hook_plain zero_memory vga_text_mode_ok typing 65
           (two_consoles fresh_tty) fresh_tty).
  - reflexivity.
  - reflexivity.
  - exact fresh_tty_valid.
  - exact dark_display_wf.
Defined.

Lemma input_hook_unfreeze_witness :
  tty_input_hook zero_memory ctrl_held KEY_Q (two_consoles frozen_tty)
  = Some (set_current (set_freeze false frozen_tty)
            (mk_devices (viewport frozen_tty) (0, 0) 0)
            (two_consoles frozen_tty)).
Proof.
  apply (input_hook_unfreeze zero_memory vga_text_mode_ok ctrl_held
           (two_consoles frozen_tty) frozen_tty).
  - reflexivity.
  - reflexivity.
  - exact frozen_tty_valid.
  - exact dark_display_wf.
Defined.

Lemma input_hook_erase_line_witness :
  ∃ d',
    tty_input_hook zero_memory ctrl_held KEY_W (two_consoles prompt_of_two)
    = Some (set_current
              (set_prompted_chars 0
                 (set_history (blanked numbered_history 243 2)
                    (tty_at 3 3 0 numbered_history)))
              d' (two_consoles prompt_of_two)).
Proof.
  apply (input_hook_erase_line zero_memory vga_text_mode_ok ctrl_held
           (two_consoles prompt_of_two) prompt_of_two).
  - reflexivity.
  - discriminate.
  - reflexivity.
  - apply (tty_at_valid 5 3 0); lia.
  - exact dark_display_wf.
  - arith.
  - arith.
Defined.

Lemma tty_init_ok_witness :
  tty_init zero_memory (two_consoles fresh_tty) =
    Some (mk_kernel
            (mk_tty 0 0 0 7 blank_history 0 false
               :: replicate 7 (set_current_color 7 zeroed_tty)) 0
            (mk_devices (replicate (Z.to_nat 2000) EMPTY_CHAR) (0, 0) 0)) ∧
  tty_valid (mk_tty 0 0 0 7 blank_history 0 false) ∧
  tty_valid (set_current_color 7 zeroed_tty).
Proof.
  assert (0 < TTYS_COUNT)%nat as Hn by (lazy; lia).
  exact (tty_init_ok zero_memory vga_text_mode_ok (two_consoles fresh_tty) Hn
           dark_display_wf).
Defined.

Lemma tty_write_bytes_witness :
  tty_write zero_memory skip_escape (Some [72; 105; 10]) 3 (Some fresh_tty)
    dark_display
  = (λ r : tty_t * devices, (Some r.1, r.2))
      <$> write_bytes zero_memory [72; 105; 10] fresh_tty dark_display.
Proof.
  apply (tty_write_bytes zero_memory skip_escape [72; 105; 10] 3 fresh_tty
           dark_display).
  - repeat (apply Forall_cons; split; [discriminate|]). apply Forall_nil_2.
  - simpl. lia.
Defined.

End MoreEvaluations.
